(** * tf2_sensor_msgs: rigid transforms of sensor messages

    A shallow embedding of [tf2_sensor_msgs.h] (the [doTransform]
    specialisations for [sensor_msgs::PointCloud2], [sensor_msgs::Imu] and
    [sensor_msgs::MagneticField], and [transformCovariance]) together with
    the parts of Eigen's geometry module and of the ROS message types the
    header calls.

    Scalars are kept abstract behind the class [Scalar], as Eigen keeps them
    behind its [Scalar] template parameter; [double] and [float] are its
    IEEE 754 instances [binary64] and [binary32].  Data-flow properties
    (aliasing, frame conditions, independence of the translation) are
    proved for every instance.  Properties of the numbers computed are
    proved from the laws that rounded arithmetic keeps ([SignSymmetric]:
    commutativity and symmetry under change of sign, which [binary64] and
    [binary32] satisfy; [UnitDivision]: division by one, proved for
    [binary64]), and the identities that rounding breaks are refuted on
    [binary64] and [binary32] inputs. *)

From Stdlib Require Import ZArith QArith Qcanon List Bool.
From Stdlib Require Import Floats.SpecFloat.
From stdpp Require Import gmap strings list fin_maps.

Set Implicit Arguments.
Unset Strict Implicit.

(** ** Scalars *)

(** The operations Eigen's templates use on their [Scalar] parameter:
    the literals [Scalar(0)], [Scalar(1)], [Scalar(2)], the four arithmetic
    operators, unary minus and [operator>]. *)
Class Scalar (T : Type) : Type := {
  s0 : T;
  s1 : T;
  s2 : T;
  sadd : T -> T -> T;
  ssub : T -> T -> T;
  smul : T -> T -> T;
  sdiv : T -> T -> T;
  sopp : T -> T;
  sgt : T -> T -> bool
}.

(** [static_cast<F>(d)]: the implicit conversion applied when a [double]
    is passed where a [float] is expected. *)
Class Narrowing (D F : Type) : Type := narrow : D -> F.

Declare Scope scalar_scope.
Delimit Scope scalar_scope with S.
Infix "+" := sadd : scalar_scope.
Infix "-" := ssub : scalar_scope.
Infix "*" := smul : scalar_scope.
Infix "/" := sdiv : scalar_scope.
Notation "- x" := (sopp x) : scalar_scope.

(** The laws of arithmetic that survive rounding to nearest: addition and
    multiplication commute, and every operation is symmetric under a
    change of sign of an operand.  Associativity and distributivity are
    not among them. *)
Class SignSymmetric (T : Type) `{Scalar T} : Prop := {
  sadd_comm : forall a b : T, (a + b = b + a)%S;
  smul_comm : forall a b : T, (a * b = b * a)%S;
  sopp_involutive : forall a : T, (- - a = a)%S;
  sadd_opp_r : forall a b : T, (a + - b = a - b)%S;
  ssub_opp_r : forall a b : T, (a - - b = a + b)%S;
  smul_opp_l : forall a b : T, ((- a) * b = - (a * b))%S;
  sdiv_opp_l : forall a b : T, ((- a) / b = - (a / b))%S
}.
Arguments SignSymmetric T {_}.

(** The values of a scalar type that are numbers of its format. *)
Class Representable (T : Type) : Type := representable : T -> Prop.

(** Division of a number of the format by one is exact, and [1 > 0]. *)
Class UnitDivision (T : Type) `{Scalar T} `{Representable T} : Prop := {
  sdiv_one : forall a : T, representable a -> (a / s1 = a)%S;
  sgt_one_zero : sgt (s1 : T) s0 = true
}.
Arguments UnitDivision T {_ _}.

(** *** Rationals

    An arithmetic without rounding, used for sample inputs of the
    properties that hold whatever the arithmetic. *)

Definition Qc_gt (a b : Qc) : bool :=
  match (b ?= a)%Qc with Lt => true | _ => false end.

#[export] Instance Qc_Scalar : Scalar Qc := {|
  s0 := 0%Qc;
  s1 := 1%Qc;
  s2 := Q2Qc 2;
  sadd := Qcplus;
  ssub := Qcminus;
  smul := Qcmult;
  sdiv := Qcdiv;
  sopp := Qcopp;
  sgt := Qc_gt
|}.

#[export] Instance Qc_Narrowing : Narrowing Qc Qc := fun d => d.

(** *** IEEE 754 binary64 and binary32

    [double] and [float], with the operations of the Standard Library's
    specification of IEEE 754 arithmetic: rounding to nearest, ties to
    even, signed zeros, infinities, and one NaN (sign and payload of a NaN
    are not told apart). *)

Record binary64 : Type := B64 { b64 : spec_float }.
Record binary32 : Type := B32 { b32 : spec_float }.

Definition lift1 {A} (mk : spec_float -> A) (un : A -> spec_float)
  (f : spec_float -> spec_float) (a : A) : A := mk (f (un a)).
Definition lift2 {A} (mk : spec_float -> A) (un : A -> spec_float)
  (f : spec_float -> spec_float -> spec_float) (a b : A) : A :=
  mk (f (un a) (un b)).

Definition SFof_pos (prec emax : Z) (p : positive) : spec_float :=
  binary_round prec emax false p 0.

#[export] Instance binary64_Scalar : Scalar binary64 := {|
  s0 := B64 (S754_zero false);
  s1 := B64 (SFof_pos 53 1024 1);
  s2 := B64 (SFof_pos 53 1024 2);
  sadd := lift2 B64 b64 (SFadd 53 1024);
  ssub := lift2 B64 b64 (SFsub 53 1024);
  smul := lift2 B64 b64 (SFmul 53 1024);
  sdiv := lift2 B64 b64 (SFdiv 53 1024);
  sopp := lift1 B64 b64 SFopp;
  sgt := fun a b => SFltb (b64 b) (b64 a)
|}.

#[export] Instance binary32_Scalar : Scalar binary32 := {|
  s0 := B32 (S754_zero false);
  s1 := B32 (SFof_pos 24 128 1);
  s2 := B32 (SFof_pos 24 128 2);
  sadd := lift2 B32 b32 (SFadd 24 128);
  ssub := lift2 B32 b32 (SFsub 24 128);
  smul := lift2 B32 b32 (SFmul 24 128);
  sdiv := lift2 B32 b32 (SFdiv 24 128);
  sopp := lift1 B32 b32 SFopp;
  sgt := fun a b => SFltb (b32 b) (b32 a)
|}.

(** A [double] is a number of the format when its mantissa and exponent
    are in canonical form and in range, as every [double] in memory is;
    zeros, infinities and NaN are. *)
#[export] Instance binary64_Representable : Representable binary64 :=
  fun x => valid_binary 53 1024 (b64 x) = true.

(** Conversion of a [double] to [float]: round to nearest, ties to even. *)
Definition SFnarrow (x : spec_float) : spec_float :=
  match x with
  | S754_finite s m e => binary_round 24 128 s m e
  | _ => x
  end.

#[export] Instance binary64_to_binary32 : Narrowing binary64 binary32 :=
  fun d => B32 (SFnarrow (b64 d)).

(** ** Eigen: fixed-size vectors, matrices, quaternions, affine transforms

    Eigen is a library the header includes; the definitions below follow
    the generic (non-vectorised) code paths of Eigen 3's [Core] and
    [Geometry] modules for the expressions the header writes. *)

Module Vector3.
Record t (T : Type) : Type := mk { x : T; y : T; z : T }.
End Vector3.

Module Quaternion.
(** [Eigen::Quaternion<Scalar>(w, x, y, z)]: the constructor takes the real
    part first. *)
Record t (T : Type) : Type := mk { w : T; x : T; y : T; z : T }.
End Quaternion.

Module Matrix3.
Record t (T : Type) : Type := mk {
  m00 : T; m01 : T; m02 : T;
  m10 : T; m11 : T; m12 : T;
  m20 : T; m21 : T; m22 : T
}.

End Matrix3.

(** [boost::array<double, 9>] *)
Module Array9.
Record t (T : Type) : Type := mk {
  a0 : T; a1 : T; a2 : T; a3 : T; a4 : T; a5 : T; a6 : T; a7 : T; a8 : T
}.

End Array9.

Module Eigen.
Section Ops.
Context {T : Type} `{Scalar T}.
Local Open Scope scalar_scope.

(** [Eigen::Map<Matrix<double,3,3,RowMajor>>(a.data())]: coefficient
    [(i, j)] of the view is element [3*i + j] of the buffer. *)
Definition Map_RowMajor (a : Array9.t T) : Matrix3.t T :=
  Matrix3.mk (Array9.a0 a) (Array9.a1 a) (Array9.a2 a)
             (Array9.a3 a) (Array9.a4 a) (Array9.a5 a)
             (Array9.a6 a) (Array9.a7 a) (Array9.a8 a).

(** Assignment of an evaluated matrix through a row-major view: the nine
    elements of the buffer it leaves. *)
Definition store_RowMajor (m : Matrix3.t T) : Array9.t T :=
  Array9.mk (Matrix3.m00 m) (Matrix3.m01 m) (Matrix3.m02 m)
            (Matrix3.m10 m) (Matrix3.m11 m) (Matrix3.m12 m)
            (Matrix3.m20 m) (Matrix3.m21 m) (Matrix3.m22 m).

(** [lhs.row(i).dot(rhs.col(j))], summed left to right. *)
Definition dot3 (a0 a1 a2 b0 b1 b2 : T) : T := a0 * b0 + a1 * b1 + a2 * b2.

(** [Matrix3 * Matrix3] *)
Definition mat_mul (a b : Matrix3.t T) : Matrix3.t T :=
  let '(Matrix3.mk a00 a01 a02 a10 a11 a12 a20 a21 a22) := a in
  let '(Matrix3.mk b00 b01 b02 b10 b11 b12 b20 b21 b22) := b in
  Matrix3.mk
    (dot3 a00 a01 a02 b00 b10 b20) (dot3 a00 a01 a02 b01 b11 b21)
    (dot3 a00 a01 a02 b02 b12 b22)
    (dot3 a10 a11 a12 b00 b10 b20) (dot3 a10 a11 a12 b01 b11 b21)
    (dot3 a10 a11 a12 b02 b12 b22)
    (dot3 a20 a21 a22 b00 b10 b20) (dot3 a20 a21 a22 b01 b11 b21)
    (dot3 a20 a21 a22 b02 b12 b22).

(** [Matrix3 * Vector3] *)
Definition mat_vec (a : Matrix3.t T) (v : Vector3.t T) : Vector3.t T :=
  let '(Matrix3.mk a00 a01 a02 a10 a11 a12 a20 a21 a22) := a in
  let '(Vector3.mk v0 v1 v2) := v in
  Vector3.mk (dot3 a00 a01 a02 v0 v1 v2)
             (dot3 a10 a11 a12 v0 v1 v2)
             (dot3 a20 a21 a22 v0 v1 v2).

Definition vec_add (a b : Vector3.t T) : Vector3.t T :=
  Vector3.mk (Vector3.x a + Vector3.x b) (Vector3.y a + Vector3.y b)
             (Vector3.z a + Vector3.z b).

Definition vec_zero : Vector3.t T := Vector3.mk s0 s0 s0.

(** [m.transpose()] *)
Definition transpose (a : Matrix3.t T) : Matrix3.t T :=
  let '(Matrix3.mk a00 a01 a02 a10 a11 a12 a20 a21 a22) := a in
  Matrix3.mk a00 a10 a20 a01 a11 a21 a02 a12 a22.

(** [Matrix3::Identity()] *)
Definition identity : Matrix3.t T :=
  Matrix3.mk s1 s0 s0 s0 s1 s0 s0 s0 s1.

(** [QuaternionBase::toRotationMatrix()] *)
Definition toRotationMatrix (q : Quaternion.t T) : Matrix3.t T :=
  let '(Quaternion.mk qw qx qy qz) := q in
  let tx := s2 * qx in
  let ty := s2 * qy in
  let tz := s2 * qz in
  let twx := tx * qw in
  let twy := ty * qw in
  let twz := tz * qw in
  let txx := tx * qx in
  let txy := ty * qx in
  let txz := tz * qx in
  let tyy := ty * qy in
  let tyz := tz * qy in
  let tzz := tz * qz in
  Matrix3.mk
    (s1 - (tyy + tzz)) (txy - twz) (txz + twy)
    (txy + twz) (s1 - (txx + tzz)) (tyz - twx)
    (txz - twy) (tyz + twx) (s1 - (txx + tyy)).

(** [QuaternionBase::squaredNorm()]: the coefficients are stored in the
    order x, y, z, w and summed in that order. *)
Definition squaredNorm (q : Quaternion.t T) : T :=
  let '(Quaternion.mk qw qx qy qz) := q in
  qx * qx + qy * qy + qz * qz + qw * qw.

(** [QuaternionBase::conjugate()] *)
Definition conjugate (q : Quaternion.t T) : Quaternion.t T :=
  let '(Quaternion.mk qw qx qy qz) := q in
  Quaternion.mk qw (- qx) (- qy) (- qz).

(** [QuaternionBase::inverse()]: the conjugate divided by the squared norm,
    and the zero quaternion when the squared norm is not positive. *)
Definition inverse (q : Quaternion.t T) : Quaternion.t T :=
  let n2 := squaredNorm q in
  if sgt n2 s0 then
    let '(Quaternion.mk cw cx cy cz) := conjugate q in
    Quaternion.mk (cw / n2) (cx / n2) (cy / n2) (cz / n2)
  else Quaternion.mk s0 s0 s0 s0.

(** [Quaternion * Quaternion] *)
Definition quat_mul (a b : Quaternion.t T) : Quaternion.t T :=
  let '(Quaternion.mk aw ax ay az) := a in
  let '(Quaternion.mk bw bx by_ bz) := b in
  Quaternion.mk
    (aw * bw - ax * bx - ay * by_ - az * bz)
    (aw * bx + ax * bw + ay * bz - az * by_)
    (aw * by_ + ay * bw + az * bx - ax * bz)
    (aw * bz + az * bw + ax * by_ - ay * bx).

(** [Quaternion * Matrix3] ([RotationBase::operator*] on a matrix): the
    rotation matrix of the quaternion times the matrix, returned by value. *)
Definition rot_mul_mat (r : Quaternion.t T) (m : Matrix3.t T) : Matrix3.t T :=
  mat_mul (toRotationMatrix r) m.

(** [Matrix3 * Quaternion] (the friend [operator*] of [RotationBase]): the
    matrix times the rotation matrix of the quaternion, returned by value. *)
Definition mat_mul_rot (m : Matrix3.t T) (r : Quaternion.t T) : Matrix3.t T :=
  mat_mul m (toRotationMatrix r).

(** [Eigen::Transform<Scalar,3,Affine>]: its linear part and its
    translation part. *)
Record Transform : Type := mkTransform {
  linear : Matrix3.t T;
  translation : Vector3.t T
}.

(** [Transform(r)]: construction from a rotation. *)
Definition Transform_of_rotation (r : Quaternion.t T) : Transform :=
  mkTransform (toRotationMatrix r) vec_zero.

(** [Translation3 * Quaternion]: the transform of the rotation,
    pre-translated ([translation() += t]). *)
Definition translation_mul_rot (t : Vector3.t T) (r : Quaternion.t T)
  : Transform :=
  let tr := Transform_of_rotation r in
  mkTransform (linear tr) (vec_add (translation tr) t).

(** [Transform * Vector3]: the result starts as the translation and the
    product of the linear part with the vector is added to it. *)
Definition transform_vec (t : Transform) (v : Vector3.t T) : Vector3.t T :=
  vec_add (translation t) (mat_vec (linear t) v).

End Ops.
Arguments Transform T : clear implicits.
End Eigen.

(** ** ROS messages

    The message types come from [std_msgs], [geometry_msgs] and
    [sensor_msgs], which the header includes.  [geometry_msgs::Vector3] and
    [geometry_msgs::Quaternion] share the records of [Vector3] and
    [Quaternion] above, at scalar type [double]. *)

Module RosTime.
(** Modelled from the spec: [ros::Time], the timestamp of the rigid
    transform record and of every sample. *)
Record t : Type := mk { sec : N; nsec : N }.
End RosTime.

Module Header.
(** Modelled from the spec: [std_msgs::Header], the timestamp/frame
    metadata of a sample (timestamp and coordinate-frame identifier). *)
Record t : Type := mk { seq : N; stamp : RosTime.t; frame_id : string }.
End Header.

Module Transform.
(** Modelled from the spec: [geometry_msgs::Transform], the RigidTransform
    of the data model (translation of three doubles, rotation quaternion of
    four doubles). *)
Record t (D : Type) : Type := mk {
  translation : Vector3.t D;
  rotation : Quaternion.t D
}.
End Transform.

Module TransformStamped.
(** Modelled from the spec: [geometry_msgs::TransformStamped], the rigid
    transform record supplied by the frame-tracking collaborator (target
    frame id and timestamp in [header], translation and rotation). *)
Record t (D : Type) : Type := mk {
  header : Header.t;
  child_frame_id : string;
  transform : Transform.t D
}.
End TransformStamped.

Module Imu.
(** Modelled from the spec: [sensor_msgs::Imu], the ImuSample of the data
    model with its header. *)
Record t (D : Type) : Type := mk {
  header : Header.t;
  orientation : Quaternion.t D;
  orientation_covariance : Array9.t D;
  angular_velocity : Vector3.t D;
  angular_velocity_covariance : Array9.t D;
  linear_acceleration : Vector3.t D;
  linear_acceleration_covariance : Array9.t D
}.
End Imu.

Module MagneticField.
(** Modelled from the spec: [sensor_msgs::MagneticField], the
    MagneticFieldSample of the data model with its header. *)
Record t (D : Type) : Type := mk {
  header : Header.t;
  magnetic_field : Vector3.t D;
  magnetic_field_covariance : Array9.t D
}.
End MagneticField.

Module PointField.
(** Modelled from the spec: [sensor_msgs::PointField], the description of
    one channel of a point cloud; the constructors of the iterators look
    the channels x, y and z up by [name]. *)
Record t : Type := mk { name : string; offset : N; datatype : N; count : N }.
End PointField.

Module Point.
(** Modelled from the spec: one element of the PointStream, as the
    [float] iterators over the channels named x, y and z see it: the three
    coordinates, and the bytes of the point record that belong to no
    coordinate (other channels and padding). *)
Record t (F : Type) : Type := mk {
  x : F; y : F; z : F;
  other : list Byte.byte
}.
End Point.

Module PointCloud2.
(** Modelled from the spec: [sensor_msgs::PointCloud2], a structured point
    cloud: header, layout metadata and the PointStream [data], addressed
    positionally. *)
Record t (F : Type) : Type := mk {
  header : Header.t;
  height : N;
  width : N;
  fields : list PointField.t;
  is_bigendian : bool;
  point_step : N;
  row_step : N;
  data : list (Point.t F);
  is_dense : bool
}.
End PointCloud2.

(** ** Objects, references and the store

    [doTransform] receives its input and its output by reference, and the
    two references may designate the same object.  Objects live in a store
    indexed by locations; a computation threads the store and fails
    ([None]) on undefined behaviour: a dangling reference, an iterator
    dereferenced out of range, or a loop that exhausts its fuel.  An
    exception is not a failure: the computation ends with the store as
    the throwing call left it and the result [thrown]. *)

Definition loc : Type := positive.

Section Store.
Context {Obj : Type}.

Definition M (A : Type) : Type :=
  gmap loc Obj -> option (A * gmap loc Obj).

Definition ret {A} (a : A) : M A := fun h => Some (a, h).

Definition bind {A B} (m : M A) (k : A -> M B) : M B :=
  fun h => match m h with
           | Some (a, h') => k a h'
           | None => None
           end.

Definition fail {A} : M A := fun _ => None.

(** Reads through the reference [l]: [f] selects what is read. *)
Definition read {A} (l : loc) (f : Obj -> A) : M A :=
  fun h => match h !! l with
           | Some o => Some (f o, h)
           | None => None
           end.

(** Writes through the reference [l]: [f] is the update of the object. *)
Definition write (l : loc) (f : Obj -> Obj) : M unit :=
  fun h => match h !! l with
           | Some o => Some (tt, <[l := f o]> h)
           | None => None
           end.

(** A reference to a member of an object. *)
Record ref (A : Type) : Type := mkRef {
  ref_loc : loc;
  ref_get : Obj -> A;
  ref_set : A -> Obj -> Obj
}.

End Store.
Arguments M Obj A : clear implicits.
Arguments ref Obj A : clear implicits.

Notation "x <- m ;; k" := (bind m (fun x => k))
  (at level 100, m at next level, right associativity).
Notation "m ;; k" := (bind m (fun _ => k))
  (at level 100, right associativity).

(** How a call ends: it returns a value, or an exception of type
    [std::runtime_error] leaves it with the message [what]. *)
Inductive result (A : Type) : Type :=
| returned (a : A)
| thrown (what : string).
Arguments returned {A} a.
Arguments thrown {A} what.

(** Sequencing with a computation that may throw: the exception ends the
    enclosing call, which throws it in turn. *)
Notation "x <-! m ;; k" :=
  (bind m (fun r => match r with
                    | returned x => k
                    | thrown what => ret (thrown what)
                    end))
  (at level 100, m at next level, right associativity).

(** ** tf2_sensor_msgs.h *)

Module tf2.

(** *** Member updates *)

Section Setters.
Context {T : Type}.

Definition set_x (v : T) (p : Vector3.t T) : Vector3.t T :=
  Vector3.mk v (Vector3.y p) (Vector3.z p).
Definition set_y (v : T) (p : Vector3.t T) : Vector3.t T :=
  Vector3.mk (Vector3.x p) v (Vector3.z p).
Definition set_z (v : T) (p : Vector3.t T) : Vector3.t T :=
  Vector3.mk (Vector3.x p) (Vector3.y p) v.

Definition set_qw (v : T) (q : Quaternion.t T) : Quaternion.t T :=
  Quaternion.mk v (Quaternion.x q) (Quaternion.y q) (Quaternion.z q).
Definition set_qx (v : T) (q : Quaternion.t T) : Quaternion.t T :=
  Quaternion.mk (Quaternion.w q) v (Quaternion.y q) (Quaternion.z q).
Definition set_qy (v : T) (q : Quaternion.t T) : Quaternion.t T :=
  Quaternion.mk (Quaternion.w q) (Quaternion.x q) v (Quaternion.z q).
Definition set_qz (v : T) (q : Quaternion.t T) : Quaternion.t T :=
  Quaternion.mk (Quaternion.w q) (Quaternion.x q) (Quaternion.y q) v.

Definition imu_set_header (h : Header.t) (o : Imu.t T) : Imu.t T :=
  Imu.mk h (Imu.orientation o) (Imu.orientation_covariance o)
    (Imu.angular_velocity o) (Imu.angular_velocity_covariance o)
    (Imu.linear_acceleration o) (Imu.linear_acceleration_covariance o).
Definition imu_upd_orientation (f : Quaternion.t T -> Quaternion.t T)
  (o : Imu.t T) : Imu.t T :=
  Imu.mk (Imu.header o) (f (Imu.orientation o)) (Imu.orientation_covariance o)
    (Imu.angular_velocity o) (Imu.angular_velocity_covariance o)
    (Imu.linear_acceleration o) (Imu.linear_acceleration_covariance o).
Definition imu_set_orientation_covariance (c : Array9.t T) (o : Imu.t T)
  : Imu.t T :=
  Imu.mk (Imu.header o) (Imu.orientation o) c
    (Imu.angular_velocity o) (Imu.angular_velocity_covariance o)
    (Imu.linear_acceleration o) (Imu.linear_acceleration_covariance o).
Definition imu_upd_angular_velocity (f : Vector3.t T -> Vector3.t T)
  (o : Imu.t T) : Imu.t T :=
  Imu.mk (Imu.header o) (Imu.orientation o) (Imu.orientation_covariance o)
    (f (Imu.angular_velocity o)) (Imu.angular_velocity_covariance o)
    (Imu.linear_acceleration o) (Imu.linear_acceleration_covariance o).
Definition imu_set_angular_velocity_covariance (c : Array9.t T) (o : Imu.t T)
  : Imu.t T :=
  Imu.mk (Imu.header o) (Imu.orientation o) (Imu.orientation_covariance o)
    (Imu.angular_velocity o) c
    (Imu.linear_acceleration o) (Imu.linear_acceleration_covariance o).
Definition imu_upd_linear_acceleration (f : Vector3.t T -> Vector3.t T)
  (o : Imu.t T) : Imu.t T :=
  Imu.mk (Imu.header o) (Imu.orientation o) (Imu.orientation_covariance o)
    (Imu.angular_velocity o) (Imu.angular_velocity_covariance o)
    (f (Imu.linear_acceleration o)) (Imu.linear_acceleration_covariance o).
Definition imu_set_linear_acceleration_covariance (c : Array9.t T)
  (o : Imu.t T) : Imu.t T :=
  Imu.mk (Imu.header o) (Imu.orientation o) (Imu.orientation_covariance o)
    (Imu.angular_velocity o) (Imu.angular_velocity_covariance o)
    (Imu.linear_acceleration o) c.

Definition mag_set_header (h : Header.t) (o : MagneticField.t T)
  : MagneticField.t T :=
  MagneticField.mk h (MagneticField.magnetic_field o)
    (MagneticField.magnetic_field_covariance o).
Definition mag_upd_magnetic_field (f : Vector3.t T -> Vector3.t T)
  (o : MagneticField.t T) : MagneticField.t T :=
  MagneticField.mk (MagneticField.header o)
    (f (MagneticField.magnetic_field o))
    (MagneticField.magnetic_field_covariance o).
Definition mag_set_magnetic_field_covariance (c : Array9.t T)
  (o : MagneticField.t T) : MagneticField.t T :=
  MagneticField.mk (MagneticField.header o) (MagneticField.magnetic_field o) c.

Definition cloud_set_header (h : Header.t) (c : PointCloud2.t T)
  : PointCloud2.t T :=
  PointCloud2.mk h (PointCloud2.height c) (PointCloud2.width c)
    (PointCloud2.fields c) (PointCloud2.is_bigendian c)
    (PointCloud2.point_step c) (PointCloud2.row_step c)
    (PointCloud2.data c) (PointCloud2.is_dense c).
Definition cloud_set_data (d : list (Point.t T)) (c : PointCloud2.t T)
  : PointCloud2.t T :=
  PointCloud2.mk (PointCloud2.header c) (PointCloud2.height c)
    (PointCloud2.width c) (PointCloud2.fields c) (PointCloud2.is_bigendian c)
    (PointCloud2.point_step c) (PointCloud2.row_step c)
    d (PointCloud2.is_dense c).

End Setters.

(** *** Point-cloud iterators

    [sensor_msgs::PointCloud2Iterator<float>] and its const variant come
    from [sensor_msgs/point_cloud2_iterator.h], which the header includes. *)

(** Modelled from the spec: the channels of the PointStream that carry
    the three coordinates of a point. *)
Inductive channel : Type := ch_x | ch_y | ch_z.

Definition channel_of_name (name : string) : option channel :=
  if String.eqb name "x" then Some ch_x
  else if String.eqb name "y" then Some ch_y
  else if String.eqb name "z" then Some ch_z
  else None.

(** Modelled from the spec: an iterator addresses the PointStream
    positionally, one channel each.  It is a cursor: the cloud it was built
    over, the channel its field name selects, its position, and the
    position of [end()], fixed when the iterator is built. *)
Record iterator : Type := mkIterator {
  it_cloud : loc;
  it_channel : channel;
  it_pos : nat;
  it_end : nat
}.

Section Iterators.
Context {F : Type}.

Definition get_channel (c : channel) (p : Point.t F) : F :=
  match c with
  | ch_x => Point.x p
  | ch_y => Point.y p
  | ch_z => Point.z p
  end.

Definition set_channel (c : channel) (v : F) (p : Point.t F) : Point.t F :=
  match c with
  | ch_x => Point.mk v (Point.y p) (Point.z p) (Point.other p)
  | ch_y => Point.mk (Point.x p) v (Point.z p) (Point.other p)
  | ch_z => Point.mk (Point.x p) (Point.y p) v (Point.other p)
  end.

(** The search of the constructor through [cloud.fields] for a field
    named [name]. *)
Definition has_field (name : string) (c : PointCloud2.t F) : bool :=
  existsb (fun f => String.eqb (PointField.name f) name) (PointCloud2.fields c).

(** [PointCloud2Iterator<float> it(cloud, name)] and
    [PointCloud2ConstIterator<float> it(cloud, name)]: the constructor
    looks the field up by its name in [cloud.fields] and throws
    [std::runtime_error("Field " + name + " does not exist")] when the
    cloud declares no field of that name.  A declared field is taken to be
    laid out as declared, a [float] channel of every point; the header
    asks for no name other than x, y and z. *)
Definition make_iterator (cloud : loc) (name : string)
  : M (PointCloud2.t F) (result iterator) :=
  declared <- read cloud (has_field name) ;;
  if declared then
    match channel_of_name name with
    | Some c =>
        n <- read cloud (fun o => length (PointCloud2.data o)) ;;
        ret (returned (mkIterator cloud c 0 n))
    | None => fail
    end
  else ret (thrown ("Field " ++ name ++ " does not exist")).

(** [it != it.end()] *)
Definition it_not_at_end (it : iterator) : bool :=
  negb (Nat.eqb (it_pos it) (it_end it)).

(** [++it] *)
Definition it_incr (it : iterator) : iterator :=
  mkIterator (it_cloud it) (it_channel it) (S (it_pos it)) (it_end it).

(** [*it] as an rvalue *)
Definition it_deref (it : iterator) : M (PointCloud2.t F) F :=
  o <- read (it_cloud it)
         (fun c => get_channel (it_channel it) <$> PointCloud2.data c !! it_pos it) ;;
  match o with
  | Some v => ret v
  | None => fail
  end.

(** [*it = v] *)
Definition it_assign (it : iterator) (v : F) : M (PointCloud2.t F) unit :=
  o <- read (it_cloud it) (fun c => PointCloud2.data c !! it_pos it) ;;
  match o with
  | Some p =>
      write (it_cloud it)
        (fun c => cloud_set_data
                    (<[it_pos it := set_channel (it_channel it) v p]>
                       (PointCloud2.data c)) c)
  | None => fail
  end.

End Iterators.

(** *** PointCloud2 *)

Section PointCloud2.
Context {D F : Type} `{Scalar F} `{Narrowing D F}.

(** The body of the [for] statement of [doTransform], with its condition
    and its increments; [fuel] bounds the number of times the condition is
    evaluated. *)
Fixpoint for_loop (fuel : nat) (t : Eigen.Transform F)
  (x_in y_in z_in x_out y_out z_out : iterator)
  : M (PointCloud2.t F) unit :=
  match fuel with
  | O => fail
  | S fuel' =>
      if it_not_at_end x_in then
        vx <- it_deref x_in ;;
        vy <- it_deref y_in ;;
        vz <- it_deref z_in ;;
        let point := Eigen.transform_vec t (Vector3.mk vx vy vz) in
        it_assign x_out (Vector3.x point) ;;
        it_assign y_out (Vector3.y point) ;;
        it_assign z_out (Vector3.z point) ;;
        for_loop fuel' t (it_incr x_in) (it_incr y_in) (it_incr z_in)
          (it_incr x_out) (it_incr y_out) (it_incr z_out)
      else ret tt
  end.

(** The [Eigen::Transform<float,3,Eigen::Affine>] built from the message:
    every component is converted to [float] as it is passed to
    [Eigen::Translation3f] and [Eigen::Quaternion<float>]. *)
Definition cloud_transform (t_in : TransformStamped.t D) : Eigen.Transform F :=
  let tr := TransformStamped.transform t_in in
  Eigen.translation_mul_rot
    (Vector3.mk (narrow (Vector3.x (Transform.translation tr)))
                (narrow (Vector3.y (Transform.translation tr)))
                (narrow (Vector3.z (Transform.translation tr))))
    (Quaternion.mk (narrow (Quaternion.w (Transform.rotation tr)))
                   (narrow (Quaternion.x (Transform.rotation tr)))
                   (narrow (Quaternion.y (Transform.rotation tr)))
                   (narrow (Quaternion.z (Transform.rotation tr)))).

(** [doTransform(const PointCloud2 &p_in, PointCloud2 &p_out,
    const TransformStamped &t_in)]: the copy and the header are written
    before the iterators are built, so an exception of an iterator
    constructor leaves them written. *)
Definition doTransform_PointCloud2 (p_in p_out : loc)
  (t_in : TransformStamped.t D) : M (PointCloud2.t F) (result unit) :=
  c <- read p_in (fun o => o) ;;
  write p_out (fun _ => c) ;;
  write p_out (cloud_set_header (TransformStamped.header t_in)) ;;
  let t := cloud_transform t_in in
  x_in <-! make_iterator p_in "x" ;;
  y_in <-! make_iterator p_in "y" ;;
  z_in <-! make_iterator p_in "z" ;;
  x_out <-! make_iterator p_out "x" ;;
  y_out <-! make_iterator p_out "y" ;;
  z_out <-! make_iterator p_out "z" ;;
  for_loop (S (it_end x_in - it_pos x_in)) t x_in y_in z_in x_out y_out z_out ;;
  ret (returned tt).

End PointCloud2.

(** *** Imu and MagneticField *)

Section Samples.
Context {D : Type} `{Scalar D}.

(** [transformCovariance(in, out, r)]: [cov_in] and [cov_out] are views of
    the two buffers; the right-hand side [r * cov_in * r.inverse()] is two
    products of a rotation with a matrix, each returned by value, so the
    buffer of [in] is read in full before the result is assigned through
    [cov_out]. *)
Definition transformCovariance {Obj : Type}
  (in_ out : ref Obj (Array9.t D)) (r : Quaternion.t D) : M Obj unit :=
  cov_in <- read (ref_loc in_) (fun o => Eigen.Map_RowMajor (ref_get in_ o)) ;;
  let rhs := Eigen.mat_mul_rot (Eigen.rot_mul_mat r cov_in) (Eigen.inverse r) in
  write (ref_loc out) (ref_set out (Eigen.store_RowMajor rhs)).

Definition rotation_of (t_in : TransformStamped.t D) : Quaternion.t D :=
  let q := Transform.rotation (TransformStamped.transform t_in) in
  Quaternion.mk (Quaternion.w q) (Quaternion.x q) (Quaternion.y q)
    (Quaternion.z q).

(** [doTransform(const Imu &imu_in, Imu &imu_out,
    const TransformStamped &t_in)] *)
Definition doTransform_Imu (imu_in imu_out : loc)
  (t_in : TransformStamped.t D) : M (Imu.t D) unit :=
  write imu_out (imu_set_header (TransformStamped.header t_in)) ;;
  let r := rotation_of t_in in
  let t := Eigen.Transform_of_rotation r in
  ax <- read imu_in (fun o => Vector3.x (Imu.angular_velocity o)) ;;
  ay <- read imu_in (fun o => Vector3.y (Imu.angular_velocity o)) ;;
  az <- read imu_in (fun o => Vector3.z (Imu.angular_velocity o)) ;;
  let vel := Eigen.transform_vec t (Vector3.mk ax ay az) in
  write imu_out (imu_upd_angular_velocity (set_x (Vector3.x vel))) ;;
  write imu_out (imu_upd_angular_velocity (set_y (Vector3.y vel))) ;;
  write imu_out (imu_upd_angular_velocity (set_z (Vector3.z vel))) ;;
  transformCovariance
    (mkRef imu_in (@Imu.angular_velocity_covariance D)
       imu_set_angular_velocity_covariance)
    (mkRef imu_out (@Imu.angular_velocity_covariance D)
       imu_set_angular_velocity_covariance) r ;;
  lx <- read imu_in (fun o => Vector3.x (Imu.linear_acceleration o)) ;;
  ly <- read imu_in (fun o => Vector3.y (Imu.linear_acceleration o)) ;;
  lz <- read imu_in (fun o => Vector3.z (Imu.linear_acceleration o)) ;;
  let accel := Eigen.transform_vec t (Vector3.mk lx ly lz) in
  write imu_out (imu_upd_linear_acceleration (set_x (Vector3.x accel))) ;;
  write imu_out (imu_upd_linear_acceleration (set_y (Vector3.y accel))) ;;
  write imu_out (imu_upd_linear_acceleration (set_z (Vector3.z accel))) ;;
  transformCovariance
    (mkRef imu_in (@Imu.linear_acceleration_covariance D)
       imu_set_linear_acceleration_covariance)
    (mkRef imu_out (@Imu.linear_acceleration_covariance D)
       imu_set_linear_acceleration_covariance) r ;;
  ow <- read imu_in (fun o => Quaternion.w (Imu.orientation o)) ;;
  ox <- read imu_in (fun o => Quaternion.x (Imu.orientation o)) ;;
  oy <- read imu_in (fun o => Quaternion.y (Imu.orientation o)) ;;
  oz <- read imu_in (fun o => Quaternion.z (Imu.orientation o)) ;;
  let orientation :=
    Eigen.quat_mul (Eigen.quat_mul r (Quaternion.mk ow ox oy oz))
      (Eigen.inverse r) in
  write imu_out (imu_upd_orientation (set_qw (Quaternion.w orientation))) ;;
  write imu_out (imu_upd_orientation (set_qx (Quaternion.x orientation))) ;;
  write imu_out (imu_upd_orientation (set_qy (Quaternion.y orientation))) ;;
  write imu_out (imu_upd_orientation (set_qz (Quaternion.z orientation))) ;;
  transformCovariance
    (mkRef imu_in (@Imu.orientation_covariance D)
       imu_set_orientation_covariance)
    (mkRef imu_out (@Imu.orientation_covariance D)
       imu_set_orientation_covariance) r.

(** [doTransform(const MagneticField &mag_in, MagneticField &mag_out,
    const TransformStamped &t_in)] *)
Definition doTransform_MagneticField (mag_in mag_out : loc)
  (t_in : TransformStamped.t D) : M (MagneticField.t D) unit :=
  write mag_out (mag_set_header (TransformStamped.header t_in)) ;;
  let r := rotation_of t_in in
  let t := Eigen.Transform_of_rotation r in
  mx <- read mag_in (fun o => Vector3.x (MagneticField.magnetic_field o)) ;;
  my <- read mag_in (fun o => Vector3.y (MagneticField.magnetic_field o)) ;;
  mz <- read mag_in (fun o => Vector3.z (MagneticField.magnetic_field o)) ;;
  let mag := Eigen.transform_vec t (Vector3.mk mx my mz) in
  write mag_out (mag_upd_magnetic_field (set_x (Vector3.x mag))) ;;
  write mag_out (mag_upd_magnetic_field (set_y (Vector3.y mag))) ;;
  write mag_out (mag_upd_magnetic_field (set_z (Vector3.z mag))) ;;
  transformCovariance
    (mkRef mag_in (@MagneticField.magnetic_field_covariance D)
       mag_set_magnetic_field_covariance)
    (mkRef mag_out (@MagneticField.magnetic_field_covariance D)
       mag_set_magnetic_field_covariance) r.

End Samples.

(** *** Timestamp and frame accessors, message conversions *)

(** [template <class T> const ros::Time& getTimestamp(const T&)] and
    [const std::string& getFrameId(const T&)] of [transform_functions.h]:
    one specialisation per message type. *)
Class Stamped (Obj : Type) : Type := {
  getTimestamp : Obj -> RosTime.t;
  getFrameId : Obj -> string
}.

(** [getTimestamp(const sensor_msgs::PointCloud2 &p)] returns
    [p.header.stamp], [getFrameId] returns [p.header.frame_id]. *)
#[export] Instance Stamped_PointCloud2 {F : Type} : Stamped (PointCloud2.t F) := {|
  getTimestamp := fun p => Header.stamp (PointCloud2.header p);
  getFrameId := fun p => Header.frame_id (PointCloud2.header p)
|}.

(** [getTimestamp(const sensor_msgs::Imu &p)], [getFrameId] *)
#[export] Instance Stamped_Imu {D : Type} : Stamped (Imu.t D) := {|
  getTimestamp := fun p => Header.stamp (Imu.header p);
  getFrameId := fun p => Header.frame_id (Imu.header p)
|}.

(** [getTimestamp(const sensor_msgs::MagneticField &p)], [getFrameId] *)
#[export] Instance Stamped_MagneticField {D : Type}
  : Stamped (MagneticField.t D) := {|
  getTimestamp := fun p => Header.stamp (MagneticField.header p);
  getFrameId := fun p => Header.frame_id (MagneticField.header p)
|}.

(** An argument bound to a reference to const: an object of the store, or
    a temporary such as the value a call returns. *)
Inductive cref (A : Type) : Type :=
| lvalue (l : loc)
| temporary (v : A).
Arguments lvalue {A} l.
Arguments temporary {A} v.

Section Conversions.
Context {Obj : Type}.

Definition read_cref (r : cref Obj) : M Obj Obj :=
  match r with
  | lvalue l => read l (fun o => o)
  | temporary v => ret v
  end.

(** [toMsg(const X &in)] for X one of PointCloud2, Imu, MagneticField:
    [return in;], a copy. *)
Definition toMsg (in_ : cref Obj) : M Obj Obj := read_cref in_.

(** [fromMsg(const X &msg, X &out)] for the same three types:
    [out = msg;]. *)
Definition fromMsg (msg : cref Obj) (out : loc) : M Obj unit :=
  m <- read_cref msg ;;
  write out (fun _ => m).

End Conversions.

End tf2.

Import tf2.

(** ** What the operations leave in the output object

    The values below are functions of the input object and of the
    transform only; the run lemmas further down show that they are what
    the three [doTransform] leave behind the output reference. *)

Section Results.
Context {D F : Type} `{Scalar D} `{Scalar F} `{Narrowing D F}.

(** The buffer [transformCovariance] assigns through [cov_out]. *)
Definition rotate_covariance (r : Quaternion.t D) (c : Array9.t D)
  : Array9.t D :=
  Eigen.store_RowMajor
    (Eigen.mat_mul_rot (Eigen.rot_mul_mat r (Eigen.Map_RowMajor c))
       (Eigen.inverse r)).

(** The three coordinates of a point, as the loop body gathers them. *)
Definition coords (p : Point.t F) : Vector3.t F :=
  Vector3.mk (Point.x p) (Point.y p) (Point.z p).

(** One point after one turn of the loop: its coordinates are those of
    [t * Vector3f(x, y, z)], the other bytes stay. *)
Definition transformPoint (t : Eigen.Transform F) (p : Point.t F)
  : Point.t F :=
  let point := Eigen.transform_vec t (coords p) in
  Point.mk (Vector3.x point) (Vector3.y point) (Vector3.z point)
    (Point.other p).

Definition cloud_result (t_in : TransformStamped.t D) (c : PointCloud2.t F)
  : PointCloud2.t F :=
  PointCloud2.mk (TransformStamped.header t_in)
    (PointCloud2.height c) (PointCloud2.width c) (PointCloud2.fields c)
    (PointCloud2.is_bigendian c) (PointCloud2.point_step c)
    (PointCloud2.row_step c)
    (map (transformPoint (cloud_transform t_in)) (PointCloud2.data c))
    (PointCloud2.is_dense c).

(** The cloud declares the three fields the iterators are built over. *)
Definition declares_xyz (c : PointCloud2.t F) : bool :=
  has_field "x" c && has_field "y" c && has_field "z" c.

(** How the PointCloud2 [doTransform] ends on the cloud [c]: the first
    iterator whose field is not declared throws. *)
Definition cloud_outcome (c : PointCloud2.t F) : result unit :=
  if negb (has_field "x" c) then thrown "Field x does not exist"
  else if negb (has_field "y" c) then thrown "Field y does not exist"
  else if negb (has_field "z" c) then thrown "Field z does not exist"
  else returned tt.

(** The cloud it leaves behind the output reference: the transformed
    cloud, or the copy with the header of the transform when an iterator
    constructor threw. *)
Definition cloud_final (t_in : TransformStamped.t D) (c : PointCloud2.t F)
  : PointCloud2.t F :=
  if declares_xyz c then cloud_result t_in c
  else cloud_set_header (TransformStamped.header t_in) c.


(** [t * Vector3d(v.x, v.y, v.z)] for [t] built from the rotation alone. *)
Definition transformVector (r : Quaternion.t D) (v : Vector3.t D)
  : Vector3.t D :=
  Eigen.transform_vec (Eigen.Transform_of_rotation r)
    (Vector3.mk (Vector3.x v) (Vector3.y v) (Vector3.z v)).

(** [r * Quaterniond(q.w, q.x, q.y, q.z) * r.inverse()] *)
Definition transformOrientation (r : Quaternion.t D) (q : Quaternion.t D)
  : Quaternion.t D :=
  Eigen.quat_mul
    (Eigen.quat_mul r
       (Quaternion.mk (Quaternion.w q) (Quaternion.x q) (Quaternion.y q)
          (Quaternion.z q)))
    (Eigen.inverse r).

Definition imu_result (t_in : TransformStamped.t D) (o : Imu.t D) : Imu.t D :=
  let r := rotation_of t_in in
  Imu.mk (TransformStamped.header t_in)
    (transformOrientation r (Imu.orientation o))
    (rotate_covariance r (Imu.orientation_covariance o))
    (transformVector r (Imu.angular_velocity o))
    (rotate_covariance r (Imu.angular_velocity_covariance o))
    (transformVector r (Imu.linear_acceleration o))
    (rotate_covariance r (Imu.linear_acceleration_covariance o)).

Definition mag_result (t_in : TransformStamped.t D) (o : MagneticField.t D)
  : MagneticField.t D :=
  let r := rotation_of t_in in
  MagneticField.mk (TransformStamped.header t_in)
    (transformVector r (MagneticField.magnetic_field o))
    (rotate_covariance r (MagneticField.magnetic_field_covariance o)).

(** *** Notions the properties are stated with *)


Definition quat_neg (q : Quaternion.t D) : Quaternion.t D :=
  Quaternion.mk (- Quaternion.w q)%S (- Quaternion.x q)%S
    (- Quaternion.y q)%S (- Quaternion.z q)%S.



(** Component-wise conversion of a quaternion, a vector and a matrix. *)
Definition narrow_quat (q : Quaternion.t D) : Quaternion.t F :=
  Quaternion.mk (narrow (Quaternion.w q)) (narrow (Quaternion.x q))
    (narrow (Quaternion.y q)) (narrow (Quaternion.z q)).

Definition narrow_vec (v : Vector3.t D) : Vector3.t F :=
  Vector3.mk (narrow (Vector3.x v)) (narrow (Vector3.y v))
    (narrow (Vector3.z v)).

Definition narrow_mat (m : Matrix3.t D) : Matrix3.t F :=
  Matrix3.mk
    (narrow (Matrix3.m00 m)) (narrow (Matrix3.m01 m)) (narrow (Matrix3.m02 m))
    (narrow (Matrix3.m10 m)) (narrow (Matrix3.m11 m)) (narrow (Matrix3.m12 m))
    (narrow (Matrix3.m20 m)) (narrow (Matrix3.m21 m)) (narrow (Matrix3.m22 m)).

(** The point-cloud transform as the specification words it: the rotation
    matrix is built in double precision from the double-precision
    quaternion and its coefficients are converted to single precision
    where it is applied.  Compared with [cloud_transform] below. *)
Definition cloud_transform_double_built (t_in : TransformStamped.t D)
  : Eigen.Transform F :=
  let tr := TransformStamped.transform t_in in
  Eigen.mkTransform
    (narrow_mat (Eigen.toRotationMatrix (Transform.rotation tr)))
    (Eigen.vec_add Eigen.vec_zero (narrow_vec (Transform.translation tr))).

End Results.

(** *** Notions the further properties are stated with *)

Section Measures.
Context {T : Type} `{Scalar T}.
Local Open Scope scalar_scope.


(** The transform with the rotation replaced. *)
Definition with_rotation (q : Quaternion.t T) (t : TransformStamped.t T)
  : TransformStamped.t T :=
  TransformStamped.mk (TransformStamped.header t)
    (TransformStamped.child_frame_id t)
    (Transform.mk (Transform.translation (TransformStamped.transform t)) q).

End Measures.

(** A [float] that is not a number. *)
Definition is_nan32 (x : binary32) : Prop := b32 x = S754_nan.

(** A point of which some coordinate is not a number. *)
Definition has_nan32 (p : Point.t binary32) : Prop :=
  is_nan32 (Point.x p) \/ is_nan32 (Point.y p) \/ is_nan32 (Point.z p).

(** ** Sample inputs

    Concrete transforms, samples and stores, used to exercise the
    statements below. *)

Module Sample.

Definition q (n : Z) (d : positive) : Qc := Q2Qc (n # d).

(** A rotation about the z axis with rational coefficients (the 3-4-5
    triangle): a unit quaternion. *)
Definition rot_z : Quaternion.t Qc :=
  Quaternion.mk (q 3 5) (q 0 1) (q 0 1) (q 4 5).

Definition stamp_a : Header.t :=
  Header.mk 7 (RosTime.mk 100 5) "odom".
Definition stamp_in : Header.t :=
  Header.mk 1 (RosTime.mk 99 0) "base_link".

Definition tf_a : TransformStamped.t Qc :=
  TransformStamped.mk stamp_a "base_link"
    (Transform.mk (Vector3.mk (q 1 1) (q 0 1) (q 0 1)) rot_z).

(** [tf_a] with another translation and another child frame. *)
Definition tf_a_moved : TransformStamped.t Qc :=
  TransformStamped.mk stamp_a "imu_link"
    (Transform.mk (Vector3.mk (q 5 1) (q (-2) 1) (q 9 2)) rot_z).

(** A symmetric covariance that is not diagonal. *)
Definition cov : Array9.t Qc :=
  Array9.mk (q 1 1) (q 1 2) (q 0 1)
            (q 1 2) (q 2 1) (q 1 3)
            (q 0 1) (q 1 3) (q 3 1).

Definition imu : Imu.t Qc :=
  Imu.mk stamp_in
    (Quaternion.mk (q 4 5) (q 3 5) (q 0 1) (q 0 1)) cov
    (Vector3.mk (q 1 1) (q 2 1) (q 3 1)) cov
    (Vector3.mk (q 0 1) (q 0 1) (q 981 100)) cov.

Definition imu_blank : Imu.t Qc :=
  let z := q 0 1 in
  let c0 := Array9.mk z z z z z z z z z in
  Imu.mk (Header.mk 0 (RosTime.mk 0 0) "")
    (Quaternion.mk z z z z) c0 (Vector3.mk z z z) c0 (Vector3.mk z z z) c0.

Definition mag : MagneticField.t Qc :=
  MagneticField.mk stamp_in (Vector3.mk (q 1 5) (q 0 1) (q (-2) 5)) cov.

Definition mag_blank : MagneticField.t Qc :=
  let z := q 0 1 in
  MagneticField.mk (Header.mk 0 (RosTime.mk 0 0) "")
    (Vector3.mk z z z) (Array9.mk z z z z z z z z z).

Definition xyz_fields : list PointField.t :=
  [PointField.mk "x" 0 7 1; PointField.mk "y" 4 7 1;
   PointField.mk "z" 8 7 1; PointField.mk "intensity" 12 7 1].

(** Stores with the input at location 1 and further objects at 2 and 3. *)
Definition imu_store : gmap loc (Imu.t Qc) :=
  <[3%positive := imu_blank]> (<[2%positive := imu_blank]> (<[1%positive := imu]> ∅)).
Definition mag_store : gmap loc (MagneticField.t Qc) :=
  <[2%positive := mag_blank]> (<[1%positive := mag]> ∅).
(** *** IEEE 754 inputs *)

(** The [double] nearest to the square root of one half, and its
    successor. *)
Definition sqrt_half : binary64 :=
  B64 (S754_finite false 6369051672525773 (-53)).
Definition sqrt_half_succ : binary64 :=
  B64 (S754_finite false 6369051672525774 (-53)).
Definition zero64 : binary64 := B64 (S754_zero false).
Definition one32 : binary32 := B32 (S754_finite false 8388608 (-23)).
Definition zero32 : binary32 := B32 (S754_zero false).

(** The rotation by a right angle about the z axis, as a [double]
    quaternion (w = z = 0.7071067811865476), with the translation (0,0,0). *)
Definition tf_quarter_turn : TransformStamped.t binary64 :=
  TransformStamped.mk stamp_a "base_link"
    (Transform.mk (Vector3.mk zero64 zero64 zero64)
       (Quaternion.mk sqrt_half zero64 zero64 sqrt_half)).

(** The same with the last bit of w and z changed: another [double]
    quaternion with the same conversion to [float]. *)
Definition tf_quarter_turn' : TransformStamped.t binary64 :=
  TransformStamped.mk stamp_a "base_link"
    (Transform.mk (Vector3.mk zero64 zero64 zero64)
       (Quaternion.mk sqrt_half_succ zero64 zero64 sqrt_half_succ)).

Definition unit_x32 : Vector3.t binary32 := Vector3.mk one32 zero32 zero32.

(** *** Further inputs *)

(** A stale output object. *)
Definition imu_store' : gmap loc (Imu.t Qc) :=
  <[2%positive := imu]> (<[1%positive := imu]> ∅).
Definition mag_store' : gmap loc (MagneticField.t Qc) :=
  <[2%positive := mag]> (<[1%positive := mag]> ∅).

(** A [float] cloud whose second point has no valid x coordinate. *)
Definition nan32 : binary32 := B32 S754_nan.
Definition cloud32 : PointCloud2.t binary32 :=
  PointCloud2.mk stamp_in 1 2 xyz_fields false 16 32
    [Point.mk one32 zero32 zero32 []; Point.mk nan32 one32 zero32 []]
    false.
Definition cloud32_blank : PointCloud2.t binary32 :=
  PointCloud2.mk (Header.mk 0 (RosTime.mk 0 0) "") 0 0 [] false 0 0 [] false.
Definition cloud32_store : gmap loc (PointCloud2.t binary32) :=
  <[3%positive := cloud32_blank]>
    (<[2%positive := cloud32_blank]> (<[1%positive := cloud32]> ∅)).

(** The [double] and the [float] nearest to the rational n/d: the
    correctly rounded quotient of the two integers. *)
Definition d64 (n : Z) (d : positive) : binary64 :=
  B64 (SFdiv 53 1024 (binary_normalize 53 1024 n 0 false) (SFof_pos 53 1024 d)).
Definition f32 (n : Z) (d : positive) : binary32 :=
  B32 (SFdiv 24 128 (binary_normalize 24 128 n 0 false) (SFof_pos 24 128 d)).

(** The rotation about the z axis of [rot_z] in [double]: w = 0.6,
    z = 0.8.  Its squared norm, computed in [double], is exactly 1. *)
Definition rot_z64 : Quaternion.t binary64 :=
  Quaternion.mk (d64 3 5) zero64 zero64 (d64 4 5).



Definition identity64 : Quaternion.t binary64 :=
  Quaternion.mk (d64 1 1) zero64 zero64 zero64.

Definition tf_z64 : TransformStamped.t binary64 :=
  TransformStamped.mk stamp_a "base_link"
    (Transform.mk (Vector3.mk (d64 1 1) zero64 zero64) rot_z64).



(** The symmetric covariance [cov] in [double]. *)
Definition cov64 : Array9.t binary64 :=
  Array9.mk (d64 1 1) (d64 1 2) (d64 0 1)
            (d64 1 2) (d64 2 1) (d64 1 3)
            (d64 0 1) (d64 1 3) (d64 3 1).


(** An Imu sample in [double] whose orientation is the unit quaternion
    w = 0.8, x = 0.6. *)
Definition imu64 : Imu.t binary64 :=
  Imu.mk stamp_in
    (Quaternion.mk (d64 4 5) (d64 3 5) zero64 zero64) cov64
    (Vector3.mk (d64 1 1) (d64 2 1) (d64 3 1)) cov64
    (Vector3.mk zero64 zero64 (d64 981 100)) cov64.
Definition imu64_blank : Imu.t binary64 :=
  let c0 := Array9.mk zero64 zero64 zero64 zero64 zero64 zero64 zero64 zero64
              zero64 in
  Imu.mk (Header.mk 0 (RosTime.mk 0 0) "")
    (Quaternion.mk zero64 zero64 zero64 zero64) c0
    (Vector3.mk zero64 zero64 zero64) c0 (Vector3.mk zero64 zero64 zero64) c0.
Definition imu64_store : gmap loc (Imu.t binary64) :=
  <[3%positive := imu64_blank]>
    (<[2%positive := imu64_blank]> (<[1%positive := imu64]> ∅)).

Definition mag64 : MagneticField.t binary64 :=
  MagneticField.mk stamp_in (Vector3.mk (d64 1 5) zero64 (d64 (-2) 5)) cov64.
Definition mag64_blank : MagneticField.t binary64 :=
  MagneticField.mk (Header.mk 0 (RosTime.mk 0 0) "")
    (Vector3.mk zero64 zero64 zero64)
    (Array9.mk zero64 zero64 zero64 zero64 zero64 zero64 zero64 zero64 zero64).
Definition mag64_store : gmap loc (MagneticField.t binary64) :=
  <[2%positive := mag64_blank]> (<[1%positive := mag64]> ∅).

(** A cloud that declares no field named x: its only field is
    intensity. *)
Definition cloud32_no_x : PointCloud2.t binary32 :=
  PointCloud2.mk stamp_in 1 1 [PointField.mk "intensity" 12 7 1] false 16 16
    [Point.mk one32 zero32 zero32 []] true.
Definition cloud32_no_x_store : gmap loc (PointCloud2.t binary32) :=
  <[2%positive := cloud32_blank]> (<[1%positive := cloud32_no_x]> ∅).

(** A translation by 1 along x with the identity rotation. *)
Definition tf_shift64 : TransformStamped.t binary64 :=
  TransformStamped.mk stamp_a "base_link"
    (Transform.mk (Vector3.mk (d64 1 1) zero64 zero64) identity64).

(** The identity rotation with the translation (-0, -0, -0), and the
    point (-0, -0, -0). *)
Definition neg_zero64 : binary64 := B64 (S754_zero true).
Definition neg_zero32 : binary32 := B32 (S754_zero true).
Definition tf_neg_zero64 : TransformStamped.t binary64 :=
  TransformStamped.mk stamp_a "base_link"
    (Transform.mk (Vector3.mk neg_zero64 neg_zero64 neg_zero64) identity64).



End Sample.

(** ** Running the store computations *)

Section StoreLemmas.
Context {Obj : Type}.
Implicit Types (h : gmap loc Obj) (l : loc).

Lemma bind_read {A B} l (f : Obj -> A) (k : A -> M Obj B) h o :
  h !! l = Some o -> bind (read l f) k h = k (f o) h.
Proof. intros Hl. unfold bind, read. rewrite Hl. reflexivity. Qed.

Lemma bind_write {B} l (f : Obj -> Obj) (k : unit -> M Obj B) h o :
  h !! l = Some o -> bind (write l f) k h = k tt (<[l := f o]> h).
Proof. intros Hl. unfold bind, write. rewrite Hl. reflexivity. Qed.

Lemma write_run l (f : Obj -> Obj) h o :
  h !! l = Some o -> write l f h = Some (tt, <[l := f o]> h).
Proof. intros Hl. unfold write. rewrite Hl. reflexivity. Qed.

End StoreLemmas.

Lemma vec_eta {T} (v : Vector3.t T) :
  Vector3.mk (Vector3.x v) (Vector3.y v) (Vector3.z v) = v.
Proof. destruct v; reflexivity. Qed.

Lemma quat_eta {T} (q : Quaternion.t T) :
  Quaternion.mk (Quaternion.w q) (Quaternion.x q) (Quaternion.y q)
    (Quaternion.z q) = q.
Proof. destruct q; reflexivity. Qed.


(** *** Lists updated in place, prefix by prefix *)

Section ListLemmas.
Context {A : Type}.

Lemma prefix_step (f : A -> A) (l : list A) (i : nat) (a : A) :
  l !! i = Some a ->
  <[i := f a]> (map f (take i l) ++ drop i l)
  = map f (take (S i) l) ++ drop (S i) l.
Proof.
  intros Hi.
  assert (Hlt : i < length l) by (eapply lookup_lt_Some; eassumption).
  rewrite (take_S_r _ _ _ Hi), (drop_S _ _ _ Hi), map_app, <- app_assoc.
  rewrite insert_app_r_alt by (rewrite length_map, length_take; lia).
  rewrite length_map, length_take.
  replace (i - i `min` length l) with 0 by lia.
  reflexivity.
Qed.

Lemma prefix_lookup (f : A -> A) (l : list A) (i j : nat) :
  i <= j -> (map f (take i l) ++ drop i l) !! j = l !! j.
Proof.
  intros Hij.
  destruct (decide (i <= length l)) as [Hl|Hl].
  - rewrite lookup_app_r by (rewrite length_map, length_take; lia).
    rewrite length_map, length_take, lookup_drop. f_equal. lia.
  - rewrite take_ge, drop_ge, app_nil_r by lia.
    rewrite !lookup_ge_None_2; [reflexivity | lia | rewrite length_map; lia].
Qed.

Lemma prefix_lookup_lt (f : A -> A) (l : list A) (k i : nat) (a : A) :
  i < k -> l !! i = Some a ->
  (map f (take k l) ++ drop k l) !! i = Some (f a).
Proof.
  intros Hik Hi.
  assert (Hlt : i < length l) by (eapply lookup_lt_Some; eassumption).
  rewrite lookup_app_l by (rewrite length_map, length_take; lia).
  change (map f (take k l)) with (f <$> take k l).
  rewrite list_lookup_fmap, lookup_take_lt by lia.
  rewrite Hi. reflexivity.
Qed.

Lemma prefix_all (f : A -> A) (l : list A) :
  map f (take (length l) l) ++ drop (length l) l = map f l.
Proof. rewrite firstn_all, drop_all, app_nil_r. reflexivity. Qed.

End ListLemmas.

(** *** Imu and MagneticField *)

Section SampleRuns.
Context {D : Type} `{Scalar D}.

Lemma transformCovariance_run {Obj} (in_ out : ref Obj (Array9.t D)) r
  (h : gmap loc Obj) o_in o_out :
  h !! ref_loc in_ = Some o_in ->
  h !! ref_loc out = Some o_out ->
  transformCovariance in_ out r h
  = Some (tt, <[ref_loc out :=
                 ref_set out (rotate_covariance r (ref_get in_ o_in)) o_out]> h).
Proof.
  intros Hin Hout. unfold transformCovariance.
  rewrite (bind_read _ _ Hin). apply (write_run _ Hout).
Qed.

Lemma bind_transformCovariance {Obj B} (in_ out : ref Obj (Array9.t D)) r
  (k : unit -> M Obj B) (h : gmap loc Obj) o_in o_out :
  h !! ref_loc in_ = Some o_in ->
  h !! ref_loc out = Some o_out ->
  bind (transformCovariance in_ out r) k h
  = k tt (<[ref_loc out :=
             ref_set out (rotate_covariance r (ref_get in_ o_in)) o_out]> h).
Proof.
  intros Hin Hout. unfold bind at 1.
  rewrite (transformCovariance_run _ Hin Hout). reflexivity.
Qed.

Ltac obj_simpl :=
  unfold imu_set_header, imu_upd_orientation, imu_set_orientation_covariance,
    imu_upd_angular_velocity, imu_set_angular_velocity_covariance,
    imu_upd_linear_acceleration, imu_set_linear_acceleration_covariance,
    mag_set_header, mag_upd_magnetic_field, mag_set_magnetic_field_covariance,
    set_x, set_y, set_z, set_qw, set_qx, set_qy, set_qz;
  cbn [Imu.header Imu.orientation Imu.orientation_covariance
       Imu.angular_velocity Imu.angular_velocity_covariance
       Imu.linear_acceleration Imu.linear_acceleration_covariance
       MagneticField.header MagneticField.magnetic_field
       MagneticField.magnetic_field_covariance
       Vector3.x Vector3.y Vector3.z
       Quaternion.w Quaternion.x Quaternion.y Quaternion.z
       ref_get ref_set ref_loc].

Ltac finish_sample :=
  unfold imu_result, mag_result, transformVector, transformOrientation;
  obj_simpl; rewrite ?quat_eta, ?vec_eta; reflexivity.

Ltac step_lookup :=
  first [ eassumption
        | apply lookup_insert_eq
        | rewrite lookup_insert_ne by congruence; eassumption ].

Ltac step :=
  lazymatch goal with
  | |- bind (read _ _) _ _ = _ => erewrite bind_read by step_lookup
  | |- bind (write _ _) _ _ = _ => erewrite bind_write by step_lookup
  | |- bind (transformCovariance _ _ _) _ _ = _ =>
      erewrite bind_transformCovariance by (cbn [ref_loc]; step_lookup)
  | |- transformCovariance _ _ _ _ = _ =>
      erewrite transformCovariance_run by (cbn [ref_loc]; step_lookup)
  end;
  rewrite ?insert_insert_eq; obj_simpl.

Lemma doTransform_Imu_distinct (imu_in imu_out : loc) t_in
  (h : gmap loc (Imu.t D)) o o' :
  imu_in <> imu_out ->
  h !! imu_in = Some o -> h !! imu_out = Some o' ->
  doTransform_Imu imu_in imu_out t_in h
  = Some (tt, <[imu_out := imu_result t_in o]> h).
Proof.
  intros Hne Hin Hout. unfold doTransform_Imu. destruct o, o'.
  repeat step. finish_sample.
Qed.

Lemma doTransform_Imu_aliased (l : loc) t_in (h : gmap loc (Imu.t D)) o :
  h !! l = Some o ->
  doTransform_Imu l l t_in h = Some (tt, <[l := imu_result t_in o]> h).
Proof.
  intros Hin. unfold doTransform_Imu. destruct o.
  repeat step. finish_sample.
Qed.

Lemma doTransform_MagneticField_distinct (mag_in mag_out : loc) t_in
  (h : gmap loc (MagneticField.t D)) o o' :
  mag_in <> mag_out ->
  h !! mag_in = Some o -> h !! mag_out = Some o' ->
  doTransform_MagneticField mag_in mag_out t_in h
  = Some (tt, <[mag_out := mag_result t_in o]> h).
Proof.
  intros Hne Hin Hout. unfold doTransform_MagneticField. destruct o, o'.
  repeat step. finish_sample.
Qed.

Lemma doTransform_MagneticField_aliased (l : loc) t_in
  (h : gmap loc (MagneticField.t D)) o :
  h !! l = Some o ->
  doTransform_MagneticField l l t_in h
  = Some (tt, <[l := mag_result t_in o]> h).
Proof.
  intros Hin. unfold doTransform_MagneticField. destruct o.
  repeat step. finish_sample.
Qed.
End SampleRuns.

(** *** PointCloud2 *)

Section CloudRuns.
Context {D F : Type} `{Scalar F} `{Narrowing D F}.
Implicit Types (h : gmap loc (PointCloud2.t F)) (c : PointCloud2.t F).

Lemma bind_it_deref {B} (it : iterator) (k : F -> M (PointCloud2.t F) B) h c p :
  h !! it_cloud it = Some c ->
  PointCloud2.data c !! it_pos it = Some p ->
  bind (it_deref it) k h = k (get_channel (it_channel it) p) h.
Proof.
  intros Hc Hp. unfold it_deref.
  unfold bind at 1. rewrite (bind_read _ _ Hc), Hp. reflexivity.
Qed.

Lemma bind_it_assign {B} (it : iterator) (v : F)
  (k : unit -> M (PointCloud2.t F) B) h c p :
  h !! it_cloud it = Some c ->
  PointCloud2.data c !! it_pos it = Some p ->
  bind (it_assign it v) k h
  = k tt (<[it_cloud it :=
             cloud_set_data
               (<[it_pos it := set_channel (it_channel it) v p]>
                  (PointCloud2.data c)) c]> h).
Proof.
  intros Hc Hp. unfold it_assign.
  unfold bind at 1. rewrite (bind_read _ _ Hc), Hp.
  rewrite (write_run _ Hc). reflexivity.
Qed.

Lemma bind_make_iterator {B} (cloud : loc) (name : string) (ch : channel)
  (k : result iterator -> M (PointCloud2.t F) B) h c :
  channel_of_name name = Some ch ->
  h !! cloud = Some c ->
  has_field name c = true ->
  bind (make_iterator cloud name) k h
  = k (returned (mkIterator cloud ch 0 (length (PointCloud2.data c)))) h.
Proof.
  intros Hn Hc Hf. unfold make_iterator.
  unfold bind at 1. rewrite (bind_read _ _ Hc), Hf, Hn.
  rewrite (bind_read _ _ Hc). reflexivity.
Qed.

Lemma bind_make_iterator_throws {B} (cloud : loc) (name : string)
  (k : result iterator -> M (PointCloud2.t F) B) h c :
  h !! cloud = Some c ->
  has_field name c = false ->
  bind (make_iterator cloud name) k h
  = k (thrown ("Field " ++ name ++ " does not exist")) h.
Proof.
  intros Hc Hf. unfold make_iterator.
  unfold bind at 1. rewrite (bind_read _ _ Hc), Hf. reflexivity.
Qed.

Lemma cloud_set_data_same c : cloud_set_data (PointCloud2.data c) c = c.
Proof. destruct c; reflexivity. Qed.

Lemma bind_assign_xyz {B} (p_out : loc) (i n : nat) (vx vy vz : F)
  (k : unit -> M (PointCloud2.t F) B) h c p :
  h !! p_out = Some c ->
  PointCloud2.data c !! i = Some p ->
  bind (it_assign (mkIterator p_out ch_x i n) vx)
    (fun _ => bind (it_assign (mkIterator p_out ch_y i n) vy)
       (fun _ => bind (it_assign (mkIterator p_out ch_z i n) vz) k)) h
  = k tt (<[p_out :=
             cloud_set_data
               (<[i := Point.mk vx vy vz (Point.other p)]> (PointCloud2.data c))
               c]> h).
Proof.
  intros Hc Hp.
  assert (Hlen : i < length (PointCloud2.data c))
    by (eapply lookup_lt_Some; eassumption).
  rewrite (bind_it_assign (it:=mkIterator p_out ch_x i n) _ _ Hc Hp).
  cbn [it_cloud it_pos it_channel].
  erewrite (bind_it_assign (it:=mkIterator p_out ch_y i n));
    [ | apply lookup_insert_eq
      | apply list_lookup_insert_eq; exact Hlen ].
  cbn [it_cloud it_pos it_channel]. rewrite insert_insert_eq.
  erewrite (bind_it_assign (it:=mkIterator p_out ch_z i n));
    [ | apply lookup_insert_eq
      | unfold cloud_set_data; cbn [PointCloud2.data];
        apply list_lookup_insert_eq; rewrite length_insert; exact Hlen ].
  cbn [it_cloud it_pos it_channel]. rewrite insert_insert_eq.
  unfold cloud_set_data.
  cbn [PointCloud2.data PointCloud2.header PointCloud2.height
       PointCloud2.width PointCloud2.fields PointCloud2.is_bigendian
       PointCloud2.point_step PointCloud2.row_step PointCloud2.is_dense].
  rewrite !list_insert_insert_eq. reflexivity.
Qed.

Lemma for_loop_S (fuel : nat) (t : Eigen.Transform F)
  (x_in y_in z_in x_out y_out z_out : iterator) :
  for_loop (S fuel) t x_in y_in z_in x_out y_out z_out
  = if it_not_at_end x_in then
      vx <- it_deref x_in ;;
      vy <- it_deref y_in ;;
      vz <- it_deref z_in ;;
      let point := Eigen.transform_vec t (Vector3.mk vx vy vz) in
      it_assign x_out (Vector3.x point) ;;
      it_assign y_out (Vector3.y point) ;;
      it_assign z_out (Vector3.z point) ;;
      for_loop fuel t (it_incr x_in) (it_incr y_in) (it_incr z_in)
        (it_incr x_out) (it_incr y_out) (it_incr z_out)
    else ret tt.
Proof. reflexivity. Qed.

Lemma for_loop_upto (t : Eigen.Transform F) (p_in p_out : loc)
  (orig : list (Point.t F)) (e : nat) :
  e <= length orig ->
  forall (k i : nat) h cin cout,
    i + k = e ->
    h !! p_in = Some cin ->
    h !! p_out = Some cout ->
    (forall j, i <= j -> PointCloud2.data cin !! j = orig !! j) ->
    PointCloud2.data cout
    = map (transformPoint t) (take i orig) ++ drop i orig ->
    for_loop (S k) t
      (mkIterator p_in ch_x i e) (mkIterator p_in ch_y i e)
      (mkIterator p_in ch_z i e) (mkIterator p_out ch_x i e)
      (mkIterator p_out ch_y i e) (mkIterator p_out ch_z i e) h
    = Some (tt, <[p_out :=
                   cloud_set_data
                     (map (transformPoint t) (take e orig) ++ drop e orig)
                     cout]> h).
Proof.
  intros He.
  induction k as [|k IH]; intros i h cin cout Hik Hin Hout Hrest Hdone.
  - assert (i = e) by lia. subst i.
    cbn [for_loop]. unfold it_not_at_end. cbn [it_pos it_end].
    rewrite Nat.eqb_refl. cbn [negb]. unfold ret.
    rewrite <- Hdone, cloud_set_data_same.
    rewrite insert_id by assumption. reflexivity.
  - assert (Hlt : i < length orig) by lia.
    destruct (lookup_lt_is_Some_2 orig i Hlt) as [p Hp].
    assert (Hpin : PointCloud2.data cin !! i = Some p)
      by (rewrite Hrest by lia; exact Hp).
    assert (Hpout : PointCloud2.data cout !! i = Some p)
      by (rewrite Hdone, prefix_lookup by lia; exact Hp).
    assert (Hlen : i < length (PointCloud2.data cout))
      by (eapply lookup_lt_Some; eassumption).
    rewrite for_loop_S. unfold it_not_at_end. cbn [it_pos it_end].
    replace (i =? e) with false by (symmetry; apply Nat.eqb_neq; lia).
    cbn [negb].
    rewrite (bind_it_deref (it:=mkIterator p_in ch_x i _) _ Hin Hpin).
    rewrite (bind_it_deref (it:=mkIterator p_in ch_y i _) _ Hin Hpin).
    rewrite (bind_it_deref (it:=mkIterator p_in ch_z i _) _ Hin Hpin).
    cbn [get_channel it_channel].
    erewrite bind_assign_xyz; [ | exact Hout | exact Hpout ].
    change (Point.mk _ _ _ (Point.other p)) with (transformPoint t p).
    set (c3 := cloud_set_data _ cout).
    unfold it_incr. cbn [it_cloud it_pos it_channel it_end].
    erewrite (IH (S i) _ (if decide (p_in = p_out) then c3 else cin) c3).
    + rewrite insert_insert_eq. reflexivity.
    + lia.
    + destruct (decide (p_in = p_out)) as [->|Hne].
      * apply lookup_insert_eq.
      * rewrite lookup_insert_ne by congruence. exact Hin.
    + apply lookup_insert_eq.
    + intros j Hj. destruct (decide (p_in = p_out)) as [->|Hne].
      * assert (cin = cout) by congruence. subst cin.
        unfold c3. cbn [cloud_set_data PointCloud2.data].
        rewrite list_lookup_insert_ne by lia. apply Hrest. lia.
      * apply Hrest. lia.
    + unfold c3. cbn [cloud_set_data PointCloud2.data].
      rewrite Hdone. apply prefix_step. exact Hp.
Qed.

Lemma for_loop_run (t : Eigen.Transform F) (p_in p_out : loc)
  (orig : list (Point.t F)) :
  forall (k i : nat) h cin cout,
    i + k = length orig ->
    h !! p_in = Some cin ->
    h !! p_out = Some cout ->
    (forall j, i <= j -> PointCloud2.data cin !! j = orig !! j) ->
    PointCloud2.data cout
    = map (transformPoint t) (take i orig) ++ drop i orig ->
    for_loop (S k) t
      (mkIterator p_in ch_x i (length orig))
      (mkIterator p_in ch_y i (length orig))
      (mkIterator p_in ch_z i (length orig))
      (mkIterator p_out ch_x i (length orig))
      (mkIterator p_out ch_y i (length orig))
      (mkIterator p_out ch_z i (length orig)) h
    = Some (tt, <[p_out := cloud_set_data (map (transformPoint t) orig) cout]> h).
Proof.
  intros k i h cin cout Hik Hin Hout Hrest Hdone.
  rewrite (for_loop_upto (le_n _) Hik Hin Hout Hrest Hdone).
  rewrite prefix_all. reflexivity.
Qed.

(** The loop stopped at position [k]: the points below [k] are
    transformed, the others are as they were. *)
Lemma for_loop_prefix (p_in p_out : loc) (t_in : TransformStamped.t D)
  h c c0 (k : nat) :
  h !! p_in = Some c ->
  h !! p_out = Some c0 ->
  k <= length (PointCloud2.data c) ->
  let h0 :=
    <[p_out := cloud_set_header (TransformStamped.header t_in) c]> h in
  exists c_k : PointCloud2.t F,
    for_loop (S k) (cloud_transform t_in)
      (mkIterator p_in ch_x 0 k) (mkIterator p_in ch_y 0 k)
      (mkIterator p_in ch_z 0 k) (mkIterator p_out ch_x 0 k)
      (mkIterator p_out ch_y 0 k) (mkIterator p_out ch_z 0 k) h0
    = Some (tt, <[p_out := c_k]> h0)
    /\ (forall (i : nat) (p : Point.t F),
          i < k -> PointCloud2.data c !! i = Some p ->
          PointCloud2.data c_k !! i
          = Some (transformPoint (cloud_transform t_in) p))
    /\ (forall i : nat,
          k <= i -> PointCloud2.data c_k !! i = PointCloud2.data c !! i).
Proof.
  intros Hin Hout Hk h0.
  set (ch := cloud_set_header (TransformStamped.header t_in) c) in *.
  assert (Hout0 : h0 !! p_out = Some ch) by apply lookup_insert_eq.
  assert (Hin0 : exists cin, h0 !! p_in = Some cin
                       /\ PointCloud2.data cin = PointCloud2.data c).
  { destruct (decide (p_in = p_out)) as [->|Hne].
    - exists ch. split; [exact Hout0 | reflexivity].
    - exists c. split; [ | reflexivity].
      unfold h0. rewrite lookup_insert_ne by congruence. exact Hin. }
  destruct Hin0 as (cin & Hcin & Hdata).
  eexists. split; [ | split ].
  - eapply (for_loop_upto (orig:=PointCloud2.data c) Hk (i:=0)).
    + lia.
    + exact Hcin.
    + exact Hout0.
    + intros j _. rewrite Hdata. reflexivity.
    + reflexivity.
  - intros i p Hi Hp. cbn [cloud_set_data PointCloud2.data].
    exact (prefix_lookup_lt _ Hi Hp).
  - intros i Hi. cbn [cloud_set_data PointCloud2.data].
    apply prefix_lookup. exact Hi.
Qed.

Lemma doTransform_PointCloud2_run (p_in p_out : loc)
  (t_in : TransformStamped.t D) h c c0 :
  h !! p_in = Some c ->
  h !! p_out = Some c0 ->
  doTransform_PointCloud2 p_in p_out t_in h
  = Some (cloud_outcome c, <[p_out := cloud_final t_in c]> h).
Proof.
  intros Hin Hout. unfold doTransform_PointCloud2.
  rewrite (bind_read _ _ Hin), (bind_write _ _ Hout).
  erewrite bind_write by apply lookup_insert_eq.
  rewrite insert_insert_eq.
  set (ch := cloud_set_header (TransformStamped.header t_in) c).
  set (h2 := <[p_out := ch]> h).
  assert (Hout2 : h2 !! p_out = Some ch) by apply lookup_insert_eq.
  assert (Hin2 : exists cin, h2 !! p_in = Some cin
                       /\ PointCloud2.data cin = PointCloud2.data c
                       /\ forall name, has_field name cin = has_field name c).
  { destruct (decide (p_in = p_out)) as [->|Hne].
    - exists ch. split; [exact Hout2 | split; reflexivity].
    - exists c. split; [ | split; reflexivity].
      unfold h2. rewrite lookup_insert_ne by congruence. exact Hin. }
  destruct Hin2 as (cin & Hcin & Hdata & Hfields).
  unfold cloud_outcome, cloud_final, declares_xyz.
  destruct (has_field "x" c) eqn:Hx; cbn [negb andb];
    [ | erewrite bind_make_iterator_throws;
        [ reflexivity | exact Hcin | rewrite Hfields; exact Hx ] ].
  erewrite bind_make_iterator;
    [ | reflexivity | exact Hcin | rewrite Hfields; exact Hx ].
  destruct (has_field "y" c) eqn:Hy; cbn [negb andb];
    [ | erewrite bind_make_iterator_throws;
        [ reflexivity | exact Hcin | rewrite Hfields; exact Hy ] ].
  erewrite bind_make_iterator;
    [ | reflexivity | exact Hcin | rewrite Hfields; exact Hy ].
  destruct (has_field "z" c) eqn:Hz; cbn [negb andb];
    [ | erewrite bind_make_iterator_throws;
        [ reflexivity | exact Hcin | rewrite Hfields; exact Hz ] ].
  erewrite bind_make_iterator;
    [ | reflexivity | exact Hcin | rewrite Hfields; exact Hz ].
  erewrite bind_make_iterator; [ | reflexivity | exact Hout2 | exact Hx ].
  erewrite bind_make_iterator; [ | reflexivity | exact Hout2 | exact Hy ].
  erewrite bind_make_iterator; [ | reflexivity | exact Hout2 | exact Hz ].
  cbn [it_end it_pos]. rewrite Nat.sub_0_r, Hdata.
  change (PointCloud2.data ch) with (PointCloud2.data c).
  unfold bind at 1.
  erewrite (for_loop_run (orig:=PointCloud2.data c) (i:=0));
    [ | lia | exact Hcin | exact Hout2
      | intros j _; rewrite Hdata; reflexivity
      | reflexivity ].
  unfold h2, ret. rewrite insert_insert_eq. reflexivity.
Qed.

(** On a cloud that declares the three fields the call returns and
    leaves the transformed cloud. *)
Lemma doTransform_PointCloud2_returns (p_in p_out : loc)
  (t_in : TransformStamped.t D) h c c0 :
  h !! p_in = Some c ->
  h !! p_out = Some c0 ->
  declares_xyz c = true ->
  doTransform_PointCloud2 p_in p_out t_in h
  = Some (returned tt, <[p_out := cloud_result t_in c]> h).
Proof.
  intros Hin Hout Hd. rewrite (doTransform_PointCloud2_run t_in Hin Hout).
  unfold cloud_outcome, cloud_final. rewrite Hd.
  unfold declares_xyz in Hd.
  apply andb_prop in Hd as [Hd Hz]. apply andb_prop in Hd as [Hx Hy].
  rewrite Hx, Hy, Hz. reflexivity.
Qed.

Lemma cloud_outcome_returned c :
  cloud_outcome c = returned tt <-> declares_xyz c = true.
Proof.
  unfold cloud_outcome, declares_xyz.
  destruct (has_field "x" c), (has_field "y" c), (has_field "z" c); cbn;
    split; intros Heq; try reflexivity; discriminate Heq.
Qed.

End CloudRuns.

(** ** Further facts used by the properties *)

Section CloudFacts.
Context {D F : Type} `{Scalar F} `{Narrowing D F}.

Lemma coords_transformPoint (t : Eigen.Transform F) (p : Point.t F) :
  coords (transformPoint t p) = Eigen.transform_vec t (coords p).
Proof. reflexivity. Qed.

Lemma cloud_transform_parts (t_in : TransformStamped.t D) :
  cloud_transform t_in
  = Eigen.mkTransform
      (Eigen.toRotationMatrix
         (narrow_quat (Transform.rotation (TransformStamped.transform t_in))))
      (Eigen.vec_add Eigen.vec_zero
         (narrow_vec (Transform.translation (TransformStamped.transform t_in)))).
Proof. reflexivity. Qed.

Lemma cloud_result_lookup (t_in : TransformStamped.t D) (c : PointCloud2.t F)
  (i : nat) :
  PointCloud2.data (cloud_result t_in c) !! i
  = transformPoint (cloud_transform t_in) <$> PointCloud2.data c !! i.
Proof. cbn. apply list_lookup_fmap. Qed.

Lemma cloud_final_frame (t_in : TransformStamped.t D) (c : PointCloud2.t F) :
  PointCloud2.header (cloud_final t_in c) = TransformStamped.header t_in
  /\ PointCloud2.height (cloud_final t_in c) = PointCloud2.height c
  /\ PointCloud2.width (cloud_final t_in c) = PointCloud2.width c
  /\ PointCloud2.fields (cloud_final t_in c) = PointCloud2.fields c
  /\ PointCloud2.is_bigendian (cloud_final t_in c) = PointCloud2.is_bigendian c
  /\ PointCloud2.point_step (cloud_final t_in c) = PointCloud2.point_step c
  /\ PointCloud2.row_step (cloud_final t_in c) = PointCloud2.row_step c
  /\ PointCloud2.is_dense (cloud_final t_in c) = PointCloud2.is_dense c
  /\ map (@Point.other F) (PointCloud2.data (cloud_final t_in c))
     = map (@Point.other F) (PointCloud2.data c).
Proof.
  unfold cloud_final. destruct (declares_xyz c).
  - repeat (split; [reflexivity | ]). cbn. rewrite map_map. reflexivity.
  - repeat (split; [reflexivity | ]). reflexivity.
Qed.

End CloudFacts.

Section GeneralRuns.
Context {D : Type} `{Scalar D}.

Lemma doTransform_Imu_run (imu_in imu_out : loc) (t_in : TransformStamped.t D)
  (h : gmap loc (Imu.t D)) (o o0 : Imu.t D) :
  h !! imu_in = Some o -> h !! imu_out = Some o0 ->
  doTransform_Imu imu_in imu_out t_in h
  = Some (tt, <[imu_out := imu_result t_in o]> h).
Proof.
  intros Hin Hout. destruct (decide (imu_in = imu_out)) as [<-|Hne].
  - exact (doTransform_Imu_aliased t_in Hin).
  - exact (doTransform_Imu_distinct t_in Hne Hin Hout).
Qed.

Lemma doTransform_MagneticField_run (mag_in mag_out : loc)
  (t_in : TransformStamped.t D) (h : gmap loc (MagneticField.t D))
  (o o0 : MagneticField.t D) :
  h !! mag_in = Some o -> h !! mag_out = Some o0 ->
  doTransform_MagneticField mag_in mag_out t_in h
  = Some (tt, <[mag_out := mag_result t_in o]> h).
Proof.
  intros Hin Hout. destruct (decide (mag_in = mag_out)) as [<-|Hne].
  - exact (doTransform_MagneticField_aliased t_in Hin).
  - exact (doTransform_MagneticField_distinct t_in Hne Hin Hout).
Qed.

Lemma rotation_of_eta (t : TransformStamped.t D) :
  rotation_of t = Transform.rotation (TransformStamped.transform t).
Proof. unfold rotation_of. apply quat_eta. Qed.




End GeneralRuns.

(** ** The laws of rounded arithmetic *)

(** *** Rounding to nearest is symmetric under a change of sign *)

Section RoundingLaws.
Variables prec emax : Z.

Lemma SFopp_involutive (x : spec_float) : SFopp (SFopp x) = x.
Proof.
  destruct x as [s|s| |s m e]; cbn; rewrite ?negb_involutive; reflexivity.
Qed.

Lemma binary_round_aux_opp (s : bool) (m e : Z) (l : location) :
  binary_round_aux prec emax (negb s) m e l
  = SFopp (binary_round_aux prec emax s m e l).
Proof.
  unfold binary_round_aux.
  destruct (shr_fexp prec emax m e l) as [mrs' e'].
  destruct (shr_fexp prec emax _ e' loc_Exact) as [mrs'' e''].
  destruct (shr_m mrs'') as [|p|p]; try reflexivity.
  destruct (Z.leb e'' (emax - prec)); reflexivity.
Qed.

Lemma SFmul_comm (x y : spec_float) : SFmul prec emax x y = SFmul prec emax y x.
Proof.
  destruct x as [sx|sx| |sx mx ex], y as [sy|sy| |sy my ey]; cbn;
    rewrite ?(xorb_comm sx sy); try reflexivity.
  rewrite (Pos.mul_comm mx my), (Z.add_comm ex ey). reflexivity.
Qed.

Lemma SFmul_opp_l (x y : spec_float) :
  SFmul prec emax (SFopp x) y = SFopp (SFmul prec emax x y).
Proof.
  destruct x as [sx|sx| |sx mx ex], y as [sy|sy| |sy my ey]; cbn;
    rewrite <- ?negb_xorb_l; try reflexivity.
  apply binary_round_aux_opp.
Qed.

Lemma SFdiv_opp_l (x y : spec_float) :
  SFdiv prec emax (SFopp x) y = SFopp (SFdiv prec emax x y).
Proof.
  destruct x as [sx|sx| |sx mx ex], y as [sy|sy| |sy my ey];
    cbn -[SFdiv_core_binary]; rewrite <- ?negb_xorb_l; try reflexivity.
  destruct (SFdiv_core_binary prec emax (Zpos mx) ex (Zpos my) ey)
    as [[mz ez] lz].
  apply binary_round_aux_opp.
Qed.

Lemma SFadd_comm (x y : spec_float) : SFadd prec emax x y = SFadd prec emax y x.
Proof.
  destruct x as [sx|sx| |sx mx ex], y as [sy|sy| |sy my ey]; cbn;
    try reflexivity; try (destruct sx, sy; reflexivity).
  rewrite (Z.min_comm ex ey), Z.add_comm. reflexivity.
Qed.

Lemma SFadd_opp_r (x y : spec_float) :
  SFadd prec emax x (SFopp y) = SFsub prec emax x y.
Proof.
  destruct x as [sx|sx| |sx mx ex], y as [sy|sy| |sy my ey]; cbn;
    try reflexivity; destruct sx, sy; reflexivity.
Qed.

Lemma SFsub_opp_r (x y : spec_float) :
  SFsub prec emax x (SFopp y) = SFadd prec emax x y.
Proof.
  destruct x as [sx|sx| |sx mx ex], y as [sy|sy| |sy my ey]; cbn;
    rewrite ?negb_involutive; try reflexivity; destruct sx, sy; reflexivity.
Qed.

End RoundingLaws.

(** *** Division of a [double] by one is exact *)

Lemma div_eucl_exact (a b q : Z) :
  (0 < b)%Z -> a = (q * b)%Z -> Z.div_eucl a b = (q, 0%Z).
Proof.
  intros Hb Ha.
  pose proof (Z_div_mod a b ltac:(lia)) as Hdm.
  destruct (Z.div_eucl a b) as [q' r']. destruct Hdm as [Heq Hr].
  assert (q' = q) by nia. subst q'. f_equal. nia.
Qed.

(** The quotient of a canonical mantissa by the mantissa 2^52 of one,
    before rounding: the mantissa itself at the least exponent, and
    twice the mantissa one exponent lower otherwise. *)
Lemma SFdiv_core_binary_one (mx : positive) (ex : Z) :
  bounded 53 1024 mx ex = true ->
  SFdiv_core_binary 53 1024 (Zpos mx) ex (Zpos 4503599627370496) (-52)
  = if (ex =? -1074)%Z then (Zpos mx, ex, loc_Exact)
    else (Zpos mx~0, (ex - 1)%Z, loc_Exact).
Proof.
  unfold bounded, canonical_mantissa, fexp, emin. intros Hb.
  apply andb_prop in Hb as [Hc He].
  apply Z.eqb_eq in Hc. apply Z.leb_le in He.
  unfold SFdiv_core_binary, fexp, emin.
  change (Zdigits2 (Zpos mx)) with (Zpos (digits2_pos mx)).
  change (Zdigits2 (Zpos 4503599627370496)) with 53%Z.
  set (d1 := Zpos (digits2_pos mx)) in *.
  destruct (Z.eqb_spec ex (-1074)) as [Hex|Hex].
  - replace (Z.min (Z.max (d1 + ex - (53 + -52) - 53) (3 - 1024 - 53))
               (ex - -52))%Z
      with ex by lia.
    replace (ex - -52 - ex)%Z with 52%Z by lia.
    rewrite Z.shiftl_mul_pow2 by lia.
    rewrite (@div_eucl_exact _ _ (Zpos mx)) by lia.
    reflexivity.
  - replace (Z.min (Z.max (d1 + ex - (53 + -52) - 53) (3 - 1024 - 53))
               (ex - -52))%Z
      with (ex - 1)%Z by lia.
    replace (ex - -52 - (ex - 1))%Z with 53%Z by lia.
    rewrite Z.shiftl_mul_pow2 by lia.
    rewrite (@div_eucl_exact _ _ (Zpos mx~0)) by lia.
    reflexivity.
Qed.

(** Rounding a canonical mantissa changes nothing. *)
Lemma binary_round_aux_canonical (s : bool) (mx : positive) (ex : Z) :
  bounded 53 1024 mx ex = true ->
  binary_round_aux 53 1024 s (Zpos mx) ex loc_Exact = S754_finite s mx ex.
Proof.
  unfold bounded, canonical_mantissa. intros Hb.
  apply andb_prop in Hb as [Hc He]. apply Z.eqb_eq in Hc.
  unfold binary_round_aux, shr_fexp.
  change (Zdigits2 (Zpos mx)) with (Zpos (digits2_pos mx)).
  rewrite Hc, Z.sub_diag.
  cbn [shr shr_record_of_loc shr_m loc_of_shr_record round_nearest_even].
  change (Zdigits2 (Zpos mx)) with (Zpos (digits2_pos mx)).
  rewrite Hc, Z.sub_diag. cbn [shr shr_record_of_loc shr_m].
  rewrite He. reflexivity.
Qed.

(** Rounding twice a canonical mantissa, one exponent lower, gives the
    mantissa back. *)
Lemma binary_round_aux_double (s : bool) (mx : positive) (ex : Z) :
  bounded 53 1024 mx ex = true ->
  binary_round_aux 53 1024 s (Zpos mx~0) (ex - 1) loc_Exact
  = S754_finite s mx ex.
Proof.
  unfold bounded, canonical_mantissa. intros Hb.
  apply andb_prop in Hb as [Hc He]. apply Z.eqb_eq in Hc.
  unfold binary_round_aux, shr_fexp at 1.
  change (Zdigits2 (Zpos mx~0)) with (Zpos (Pos.succ (digits2_pos mx))).
  rewrite Pos2Z.inj_succ.
  replace (Z.succ (Zpos (digits2_pos mx)) + (ex - 1))%Z
    with (Zpos (digits2_pos mx) + ex)%Z by lia.
  rewrite Hc. replace (ex - (ex - 1))%Z with 1%Z by lia.
  cbn [shr shr_record_of_loc SpecFloat.iter_pos shr_1 shr_m loc_of_shr_record
       round_nearest_even orb].
  replace (ex - 1 + 1)%Z with ex by lia.
  unfold shr_fexp.
  change (Zdigits2 (Zpos mx)) with (Zpos (digits2_pos mx)).
  rewrite Hc, Z.sub_diag. cbn [shr shr_record_of_loc shr_m].
  rewrite He. reflexivity.
Qed.

Lemma SFdiv_one (x : spec_float) :
  valid_binary 53 1024 x = true ->
  SFdiv 53 1024 x (S754_finite false 4503599627370496 (-52)) = x.
Proof.
  destruct x as [s|s| |s mx ex]; intros Hv; cbn -[SFdiv_core_binary];
    rewrite ?xorb_false_r; try reflexivity.
  cbn [valid_binary] in Hv.
  rewrite (SFdiv_core_binary_one Hv).
  destruct (ex =? -1074)%Z.
  - apply binary_round_aux_canonical. exact Hv.
  - apply binary_round_aux_double. exact Hv.
Qed.

(** *** [double] and [float] satisfy the laws *)

#[export] Instance binary64_SignSymmetric : SignSymmetric binary64.
Proof.
  split; intros; destruct a as [a]; try destruct b as [b]; cbn;
    unfold lift1, lift2; cbn [b64]; f_equal.
  - apply SFadd_comm.
  - apply SFmul_comm.
  - apply SFopp_involutive.
  - apply SFadd_opp_r.
  - apply SFsub_opp_r.
  - apply SFmul_opp_l.
  - apply SFdiv_opp_l.
Qed.

#[export] Instance binary64_UnitDivision : UnitDivision binary64.
Proof.
  split.
  - intros [a] Ha. unfold representable, binary64_Representable in Ha.
    cbn in Ha. cbn. unfold lift2. cbn [b64]. f_equal.
    exact (SFdiv_one Ha).
  - reflexivity.
Qed.

#[export] Instance binary32_SignSymmetric : SignSymmetric binary32.
Proof.
  split; intros; destruct a as [a]; try destruct b as [b]; cbn;
    unfold lift1, lift2; cbn [b32]; f_equal.
  - apply SFadd_comm.
  - apply SFmul_comm.
  - apply SFopp_involutive.
  - apply SFadd_opp_r.
  - apply SFsub_opp_r.
  - apply SFmul_opp_l.
  - apply SFdiv_opp_l.
Qed.

(** *** What follows from the laws *)

Section SignFacts.
Context {T : Type} {ST : Scalar T} {LT : SignSymmetric T}.
Local Open Scope scalar_scope.

Lemma smul_opp_r (a b : T) : a * (- b) = - (a * b).
Proof. rewrite smul_comm, smul_opp_l, (smul_comm b a). reflexivity. Qed.


Ltac sign_normalise :=
  rewrite ?smul_opp_r, ?smul_opp_l, ?sopp_involutive, ?ssub_opp_r, ?sadd_opp_r.


Lemma toRotationMatrix_neg (r : Quaternion.t T) :
  Eigen.toRotationMatrix (quat_neg r) = Eigen.toRotationMatrix r.
Proof. destruct r as [qw qx qy qz]. cbn. sign_normalise. reflexivity. Qed.


Lemma squaredNorm_neg (r : Quaternion.t T) :
  Eigen.squaredNorm (quat_neg r) = Eigen.squaredNorm r.
Proof. destruct r as [qw qx qy qz]. cbn. sign_normalise. reflexivity. Qed.

Lemma toRotationMatrix_inverse_neg (r : Quaternion.t T) :
  Eigen.toRotationMatrix (Eigen.inverse (quat_neg r))
  = Eigen.toRotationMatrix (Eigen.inverse r).
Proof.
  unfold Eigen.inverse. cbv zeta. rewrite squaredNorm_neg.
  destruct (sgt (Eigen.squaredNorm r) s0); [ | reflexivity ].
  destruct r as [qw qx qy qz]. cbn.
  rewrite ?sdiv_opp_l. sign_normalise. reflexivity.
Qed.






(** [t * v] adds the product to the translation; the sum commutes. *)
Lemma transform_vec_comm (t : Eigen.Transform T) (v : Vector3.t T) :
  Eigen.transform_vec t v
  = Eigen.vec_add (Eigen.mat_vec (Eigen.linear t) v) (Eigen.translation t).
Proof.
  unfold Eigen.transform_vec, Eigen.vec_add.
  f_equal; apply sadd_comm.
Qed.

Lemma rotate_covariance_neg (r : Quaternion.t T) (c : Array9.t T) :
  rotate_covariance (quat_neg r) c = rotate_covariance r c.
Proof.
  unfold rotate_covariance, Eigen.mat_mul_rot, Eigen.rot_mul_mat.
  rewrite toRotationMatrix_inverse_neg, toRotationMatrix_neg. reflexivity.
Qed.

Lemma transformVector_neg (r : Quaternion.t T) (v : Vector3.t T) :
  transformVector (quat_neg r) v = transformVector r v.
Proof.
  unfold transformVector, Eigen.Transform_of_rotation.
  rewrite toRotationMatrix_neg. reflexivity.
Qed.


End SignFacts.

Lemma mag_result_neg {T : Type} `{SignSymmetric T}
  (t : TransformStamped.t T) (o : MagneticField.t T) :
  mag_result
    (with_rotation
       (quat_neg (Transform.rotation (TransformStamped.transform t))) t) o
  = mag_result t o.
Proof.
  unfold mag_result. rewrite !rotation_of_eta.
  cbn [with_rotation TransformStamped.transform Transform.rotation
       TransformStamped.header].
  rewrite rotate_covariance_neg, transformVector_neg. reflexivity.
Qed.

Section NanFacts.

Lemma SFmul_nan_r (prec emax : Z) (x : spec_float) :
  SFmul prec emax x S754_nan = S754_nan.
Proof. destruct x; reflexivity. Qed.

Lemma SFadd_nan_l (prec emax : Z) (x : spec_float) :
  SFadd prec emax S754_nan x = S754_nan.
Proof. destruct x; reflexivity. Qed.

Lemma SFadd_nan_r (prec emax : Z) (x : spec_float) :
  SFadd prec emax x S754_nan = S754_nan.
Proof. destruct x; reflexivity. Qed.

Lemma smul32_nan_r (a b : binary32) : is_nan32 b -> is_nan32 (smul a b).
Proof.
  unfold is_nan32. intros Hb. cbn. unfold lift2. cbn. rewrite Hb.
  apply SFmul_nan_r.
Qed.

Lemma sadd32_nan_l (a b : binary32) : is_nan32 a -> is_nan32 (sadd a b).
Proof.
  unfold is_nan32. intros Ha. cbn. unfold lift2. cbn. rewrite Ha.
  apply SFadd_nan_l.
Qed.

Lemma sadd32_nan_r (a b : binary32) : is_nan32 b -> is_nan32 (sadd a b).
Proof.
  unfold is_nan32. intros Hb. cbn. unfold lift2. cbn. rewrite Hb.
  apply SFadd_nan_r.
Qed.

Lemma dot3_nan (a0 a1 a2 v0 v1 v2 : binary32) :
  is_nan32 v0 \/ is_nan32 v1 \/ is_nan32 v2 ->
  is_nan32 (Eigen.dot3 a0 a1 a2 v0 v1 v2).
Proof.
  unfold Eigen.dot3. intros [Hv | [Hv | Hv]].
  - apply sadd32_nan_l, sadd32_nan_l, smul32_nan_r. exact Hv.
  - apply sadd32_nan_l, sadd32_nan_r, smul32_nan_r. exact Hv.
  - apply sadd32_nan_r, smul32_nan_r. exact Hv.
Qed.

Lemma transformPoint_nan (t : Eigen.Transform binary32) (p : Point.t binary32) :
  has_nan32 p ->
  is_nan32 (Point.x (transformPoint t p))
  /\ is_nan32 (Point.y (transformPoint t p))
  /\ is_nan32 (Point.z (transformPoint t p)).
Proof.
  intros Hp. destruct t as [[m00 m01 m02 m10 m11 m12 m20 m21 m22] [tx ty tz]].
  unfold transformPoint, Eigen.transform_vec, Eigen.vec_add, coords.
  cbn [Eigen.linear Eigen.translation Eigen.mat_vec Vector3.x Vector3.y
       Vector3.z Point.x Point.y Point.z].
  repeat split; apply sadd32_nan_r, dot3_nan; exact Hp.
Qed.

End NanFacts.


(** ** Worked inputs *)

(** In [double], the third of a turn about the axis (1, 1, 1) permutes the
    axes. *)
Example toRotationMatrix_third_turn :
  Eigen.toRotationMatrix
    (Quaternion.mk (Sample.d64 1 2) (Sample.d64 1 2) (Sample.d64 1 2)
       (Sample.d64 1 2))
  = Matrix3.mk Sample.zero64 Sample.zero64 (Sample.d64 1 1)
               (Sample.d64 1 1) Sample.zero64 Sample.zero64
               Sample.zero64 (Sample.d64 1 1) Sample.zero64.
Proof. vm_compute. reflexivity. Qed.

(** It sends the covariance diag(1, 2, 3) to diag(3, 1, 2). *)
Example rotate_covariance_third_turn :
  rotate_covariance
    (Quaternion.mk (Sample.d64 1 2) (Sample.d64 1 2) (Sample.d64 1 2)
       (Sample.d64 1 2))
    (Array9.mk (Sample.d64 1 1) Sample.zero64 Sample.zero64
               Sample.zero64 (Sample.d64 2 1) Sample.zero64
               Sample.zero64 Sample.zero64 (Sample.d64 3 1))
  = Array9.mk (Sample.d64 3 1) Sample.zero64 Sample.zero64
              Sample.zero64 (Sample.d64 1 1) Sample.zero64
              Sample.zero64 Sample.zero64 (Sample.d64 2 1).
Proof. vm_compute. reflexivity. Qed.

(** In [float], [Sample.tf_shift64] sends the point (1, 0, 0) to
    (2, 0, 0) and keeps the other bytes of the point. *)
Example transformPoint_sample :
  transformPoint (cloud_transform Sample.tf_shift64)
    (Point.mk Sample.one32 Sample.zero32 Sample.zero32 [Byte.x2a])
  = Point.mk (Sample.f32 2 1) Sample.zero32 Sample.zero32 [Byte.x2a].
Proof. vm_compute. reflexivity. Qed.

(** The in-place transform of the sample cloud returns and leaves two
    points. *)
Example doTransform_PointCloud2_in_place_sample :
  fst <$> doTransform_PointCloud2 1%positive 1%positive Sample.tf_z64
            Sample.cloud32_store
  = Some (returned tt)
  /\ (fun r => length (PointCloud2.data r))
       <$> (snd <$> doTransform_PointCloud2 1%positive 1%positive Sample.tf_z64
                      Sample.cloud32_store) ≫= (.!! 1%positive)
     = Some 2.
Proof. split; vm_compute; reflexivity. Qed.

(** A cloud that is not in the store cannot be transformed. *)
Example doTransform_PointCloud2_dangling :
  doTransform_PointCloud2 9%positive 1%positive Sample.tf_z64
    Sample.cloud32_store
  = None.
Proof. vm_compute. reflexivity. Qed.

(** On a cloud without a field named x the first iterator constructor
    throws. *)
Example doTransform_PointCloud2_missing_field :
  fst <$> doTransform_PointCloud2 1%positive 2%positive Sample.tf_z64
            Sample.cloud32_no_x_store
  = Some (thrown "Field x does not exist").
Proof. vm_compute. reflexivity. Qed.

(** The loop stops with an error when its fuel does not cover the cloud. *)
Example for_loop_out_of_fuel :
  for_loop 2 (cloud_transform Sample.tf_z64)
    (mkIterator 1%positive ch_x 0 2) (mkIterator 1%positive ch_y 0 2)
    (mkIterator 1%positive ch_z 0 2) (mkIterator 2%positive ch_x 0 2)
    (mkIterator 2%positive ch_y 0 2) (mkIterator 2%positive ch_z 0 2)
    (<[2%positive := Sample.cloud32]> Sample.cloud32_store)
  = None.
Proof. vm_compute. reflexivity. Qed.

(** ** The properties *)




(** C2, as amended.  For every cloud behind [p_in] that declares fields
    named x, y and z, and every transform, [doTransform] returns and
    leaves behind [p_out] a cloud with as many points as the input; for
    every index i the coordinates of output point i are R · in[i] + t
    evaluated in the arithmetic of the points, a function of input point i
    alone, where R is the rotation matrix built in that arithmetic from
    the converted quaternion and t is 0 + the converted translation.  The
    iteration ascends through the indices: the loop stopped at any
    position k has transformed the points below k and no other.  On a
    cloud that does not declare the three fields the call throws, and
    leaves behind [p_out] the copy of the input with the header of the
    transform and the points as they were.  Holds in every arithmetic of
    the points that satisfies the laws of [SignSymmetric], [float]
    included. *)
Theorem doTransform_PointCloud2_pointwise
  {D F : Type} `{SignSymmetric F} `{Narrowing D F}
  (p_in p_out : loc) (t_in : TransformStamped.t D)
  (h : gmap loc (PointCloud2.t F)) (c c0 : PointCloud2.t F) :
  h !! p_in = Some c ->
  h !! p_out = Some c0 ->
  let rotation :=
    narrow_quat (Transform.rotation (TransformStamped.transform t_in)) in
  let translation :=
    narrow_vec (Transform.translation (TransformStamped.transform t_in)) in
  let R := Eigen.toRotationMatrix rotation in
  let t := Eigen.vec_add Eigen.vec_zero translation in
  (declares_xyz c = true ->
   exists (h' : gmap loc (PointCloud2.t F)) (c' : PointCloud2.t F),
     doTransform_PointCloud2 p_in p_out t_in h = Some (returned tt, h')
     /\ h' !! p_out = Some c'
     /\ length (PointCloud2.data c') = length (PointCloud2.data c)
     /\ (forall (i : nat) (p : Point.t F),
           PointCloud2.data c !! i = Some p ->
           exists p' : Point.t F,
             PointCloud2.data c' !! i = Some p'
             /\ coords p' = Eigen.vec_add (Eigen.mat_vec R (coords p)) t)
     /\ (forall k : nat,
           k <= length (PointCloud2.data c) ->
           let h0 :=
             <[p_out := cloud_set_header (TransformStamped.header t_in) c]> h in
           exists c_k : PointCloud2.t F,
             for_loop (S k) (cloud_transform t_in)
               (mkIterator p_in ch_x 0 k) (mkIterator p_in ch_y 0 k)
               (mkIterator p_in ch_z 0 k) (mkIterator p_out ch_x 0 k)
               (mkIterator p_out ch_y 0 k) (mkIterator p_out ch_z 0 k) h0
             = Some (tt, <[p_out := c_k]> h0)
             /\ (forall (i : nat) (p : Point.t F),
                   i < k -> PointCloud2.data c !! i = Some p ->
                   PointCloud2.data c_k !! i
                   = Some (transformPoint (cloud_transform t_in) p))
             /\ (forall i : nat,
                   k <= i ->
                   PointCloud2.data c_k !! i = PointCloud2.data c !! i)))
  /\ (declares_xyz c = false ->
      exists what : string,
        doTransform_PointCloud2 p_in p_out t_in h
        = Some (thrown what,
                <[p_out := cloud_set_header (TransformStamped.header t_in) c]> h)).
Proof.
  intros Hin Hout rotation translation R t. split.
  - intros Hd.
    exists (<[p_out := cloud_result t_in c]> h), (cloud_result t_in c).
    split; [ | split; [ | split; [ | split ] ] ];
      [ | | | | intros k Hk; exact (for_loop_prefix t_in Hin Hout Hk) ].
    + exact (doTransform_PointCloud2_returns t_in Hin Hout Hd).
    + apply lookup_insert_eq.
    + cbn. apply length_map.
    + intros i p Hp. exists (transformPoint (cloud_transform t_in) p). split.
      * rewrite cloud_result_lookup, Hp. reflexivity.
      * rewrite coords_transformPoint, cloud_transform_parts.
        apply transform_vec_comm.
  - intros Hd. rewrite (doTransform_PointCloud2_run t_in Hin Hout).
    unfold cloud_final. rewrite Hd.
    destruct (cloud_outcome c) as [[]|what] eqn:Ho.
    + apply cloud_outcome_returned in Ho. congruence.
    + exists what. reflexivity.
Qed.

Lemma doTransform_PointCloud2_pointwise_witness :
  (exists (h' : gmap loc (PointCloud2.t binary32)) (c' : PointCloud2.t binary32),
     doTransform_PointCloud2 1%positive 2%positive Sample.tf_z64
       Sample.cloud32_store
     = Some (returned tt, h')
     /\ h' !! 2%positive = Some c'
     /\ length (PointCloud2.data c') = 2)
  /\ (exists what : string,
        doTransform_PointCloud2 1%positive 2%positive Sample.tf_z64
          Sample.cloud32_no_x_store
        = Some (thrown what,
                <[2%positive :=
                   cloud_set_header Sample.stamp_a Sample.cloud32_no_x]>
                  Sample.cloud32_no_x_store)).
Proof.
  split.
  - destruct (proj1 (@doTransform_PointCloud2_pointwise binary64 binary32 _ _ _
                       1%positive 2%positive Sample.tf_z64 Sample.cloud32_store
                       Sample.cloud32 Sample.cloud32_blank eq_refl eq_refl)
                eq_refl)
      as (h' & c' & Hrun & Hc' & Hlen & _).
    exists h', c'. repeat split; assumption.
  - exact (proj2 (@doTransform_PointCloud2_pointwise binary64 binary32 _ _ _
                    1%positive 2%positive Sample.tf_z64
                    Sample.cloud32_no_x_store
                    Sample.cloud32_no_x Sample.cloud32_blank eq_refl eq_refl)
             eq_refl).
Defined.

(** C2, as stated, fails.  On a cloud whose only field is intensity the
    call throws and the point behind [p_out] is the input point, not its
    image.  In [float], the rotation matrix R of the converted quaternion
    w = 0.6, z = 0.8, whose computed squared norm is exactly 1, is not
    orthonormal: R · Rᵗ is not the identity matrix.  And with the
    translation (-0, -0, -0) the image of the point (-0, -0, -0) under the
    identity rotation is (+0, +0, +0), which is not R · in + translation. *)
Lemma doTransform_PointCloud2_not_pointwise :
  doTransform_PointCloud2 1%positive 2%positive Sample.tf_shift64
    Sample.cloud32_no_x_store
  = Some (thrown "Field x does not exist",
          <[2%positive := cloud_set_header Sample.stamp_a Sample.cloud32_no_x]>
            Sample.cloud32_no_x_store)
  /\ PointCloud2.data (cloud_set_header Sample.stamp_a Sample.cloud32_no_x)
     = [Point.mk Sample.one32 Sample.zero32 Sample.zero32 []]
  /\ Eigen.squaredNorm (narrow_quat (F:=binary32) Sample.rot_z64) = s1
  /\ Eigen.mat_mul
       (Eigen.toRotationMatrix (narrow_quat (F:=binary32) Sample.rot_z64))
       (Eigen.transpose
          (Eigen.toRotationMatrix (narrow_quat (F:=binary32) Sample.rot_z64)))
     <> Eigen.identity
  /\ coords
       (transformPoint (cloud_transform (F:=binary32) Sample.tf_neg_zero64)
          (Point.mk Sample.neg_zero32 Sample.neg_zero32 Sample.neg_zero32 []))
     <> Eigen.vec_add
          (Eigen.mat_vec
             (Eigen.toRotationMatrix (narrow_quat (F:=binary32) Sample.identity64))
             (Vector3.mk Sample.neg_zero32 Sample.neg_zero32 Sample.neg_zero32))
          (narrow_vec
             (Vector3.mk Sample.neg_zero64 Sample.neg_zero64 Sample.neg_zero64)).
Proof.
  split; [ | split; [ | split; [ | split ] ] ].
  - rewrite (doTransform_PointCloud2_run (p_in:=1%positive) (p_out:=2%positive)
               (h:=Sample.cloud32_no_x_store) Sample.tf_shift64
               (c:=Sample.cloud32_no_x) (c0:=Sample.cloud32_blank)
               eq_refl eq_refl).
    reflexivity.
  - reflexivity.
  - vm_compute. reflexivity.
  - intros Heq. apply (f_equal (fun m => b32 (Matrix3.m00 m))) in Heq.
    vm_compute in Heq. discriminate Heq.
  - intros Heq. apply (f_equal (fun v => b32 (Vector3.x v))) in Heq.
    vm_compute in Heq. discriminate Heq.
Qed.

(** C3, as amended.  In the point-cloud path every component of the
    rotation quaternion and of the translation is converted to single
    precision before the affine transform is built: the rotation matrix
    applied to the points is the single-precision rotation matrix of the
    converted quaternion, and the result of [doTransform] depends on the
    transform only through its header and the converted components.
    Holds for every pair of scalar types and every conversion. *)
Theorem cloud_transform_built_in_single_precision
  {D F : Type} `{Scalar F} `{Narrowing D F}
  (t1 t2 : TransformStamped.t D) :
  TransformStamped.header t1 = TransformStamped.header t2 ->
  narrow_quat (Transform.rotation (TransformStamped.transform t1))
  = narrow_quat (Transform.rotation (TransformStamped.transform t2)) ->
  narrow_vec (Transform.translation (TransformStamped.transform t1))
  = narrow_vec (Transform.translation (TransformStamped.transform t2)) ->
  Eigen.linear (cloud_transform t1)
  = Eigen.toRotationMatrix
      (narrow_quat (Transform.rotation (TransformStamped.transform t1)))
  /\ cloud_transform t1 = cloud_transform t2
  /\ (forall (p_in p_out : loc) (h : gmap loc (PointCloud2.t F)),
        doTransform_PointCloud2 p_in p_out t1 h
        = doTransform_PointCloud2 p_in p_out t2 h).
Proof.
  intros Hh Hq Hv.
  assert (Ht : cloud_transform t1 = cloud_transform t2)
    by (rewrite !cloud_transform_parts, Hq, Hv; reflexivity).
  split; [reflexivity | split; [exact Ht | ] ].
  intros p_in p_out h. unfold doTransform_PointCloud2.
  rewrite Hh, Ht. reflexivity.
Qed.

Lemma cloud_transform_built_in_single_precision_witness :
  Transform.rotation (TransformStamped.transform Sample.tf_quarter_turn)
  <> Transform.rotation (TransformStamped.transform Sample.tf_quarter_turn')
  /\ cloud_transform (F:=binary32) Sample.tf_quarter_turn
     = cloud_transform Sample.tf_quarter_turn'.
Proof.
  split.
  - intros Heq. apply (f_equal (fun q => b64 (Quaternion.w q))) in Heq.
    discriminate Heq.
  - exact (proj1 (proj2
      (@cloud_transform_built_in_single_precision binary64 binary32 _ _
         Sample.tf_quarter_turn Sample.tf_quarter_turn'
         eq_refl eq_refl eq_refl))).
Defined.

(** C3, as stated, fails in IEEE 754 arithmetic.  For the quarter turn
    about z given as a [double] quaternion, the rotation matrix the code
    applies (built in [float] from the converted quaternion) is not the
    conversion of the rotation matrix built in [double], and the two send
    the point (1, 0, 0) to different points. *)
Lemma cloud_transform_not_double_built :
  Eigen.linear (cloud_transform (F:=binary32) Sample.tf_quarter_turn)
  <> Eigen.linear (cloud_transform_double_built Sample.tf_quarter_turn)
  /\ Eigen.transform_vec (cloud_transform Sample.tf_quarter_turn)
       Sample.unit_x32
     <> Eigen.transform_vec
          (cloud_transform_double_built Sample.tf_quarter_turn)
          Sample.unit_x32.
Proof.
  split.
  - intros Heq. apply (f_equal (fun m => b32 (Matrix3.m00 m))) in Heq.
    vm_compute in Heq. discriminate Heq.
  - intros Heq. apply (f_equal (fun v => b32 (Vector3.x v))) in Heq.
    vm_compute in Heq. discriminate Heq.
Qed.

(** C4. The Imu and the MagneticField [doTransform] do not depend on the
    translation of the transform: two transforms with the same header and
    the same rotation (whatever their translations and child frames)
    give the same result, store included, on every input. *)
Theorem doTransform_samples_ignore_translation
  {D : Type} `{Scalar D} (t1 t2 : TransformStamped.t D) :
  TransformStamped.header t1 = TransformStamped.header t2 ->
  Transform.rotation (TransformStamped.transform t1)
  = Transform.rotation (TransformStamped.transform t2) ->
  (forall (imu_in imu_out : loc) (h : gmap loc (Imu.t D)),
      doTransform_Imu imu_in imu_out t1 h
      = doTransform_Imu imu_in imu_out t2 h)
  /\ (forall (mag_in mag_out : loc) (h : gmap loc (MagneticField.t D)),
        doTransform_MagneticField mag_in mag_out t1 h
        = doTransform_MagneticField mag_in mag_out t2 h).
Proof.
  intros Hh Hr.
  assert (Hrot : rotation_of t1 = rotation_of t2)
    by (unfold rotation_of; rewrite Hr; reflexivity).
  split; intros l_in l_out h.
  - unfold doTransform_Imu. rewrite Hh, Hrot. reflexivity.
  - unfold doTransform_MagneticField. rewrite Hh, Hrot. reflexivity.
Qed.

Lemma doTransform_samples_ignore_translation_witness :
  Transform.translation (TransformStamped.transform Sample.tf_a)
  <> Transform.translation (TransformStamped.transform Sample.tf_a_moved)
  /\ doTransform_Imu 1%positive 2%positive Sample.tf_a Sample.imu_store
     = doTransform_Imu 1%positive 2%positive Sample.tf_a_moved Sample.imu_store
  /\ doTransform_MagneticField 1%positive 2%positive Sample.tf_a
       Sample.mag_store
     = doTransform_MagneticField 1%positive 2%positive Sample.tf_a_moved
         Sample.mag_store.
Proof.
  split; [ | split ].
  - intros Heq. apply (f_equal (fun v => this (Vector3.x v))) in Heq.
    discriminate Heq.
  - exact (proj1 (@doTransform_samples_ignore_translation Qc _
                    Sample.tf_a Sample.tf_a_moved eq_refl eq_refl) _ _ _).
  - exact (proj2 (@doTransform_samples_ignore_translation Qc _
                    Sample.tf_a Sample.tf_a_moved eq_refl eq_refl) _ _ _).
Defined.










(** C8.  The point-cloud [doTransform] tolerates aliasing: called with
    the output reference equal to the input reference it ends as the call
    with a distinct output object does (it returns when the cloud declares
    x, y and z, and throws otherwise), and it leaves in that object the
    very cloud that the other call leaves in the output object.  Holds for
    every scalar arithmetic. *)
Theorem doTransform_PointCloud2_alias_safe
  {D F : Type} `{Scalar F} `{Narrowing D F}
  (p_in p_out : loc) (t_in : TransformStamped.t D)
  (h : gmap loc (PointCloud2.t F)) (c c0 : PointCloud2.t F) :
  h !! p_in = Some c ->
  h !! p_out = Some c0 ->
  p_in <> p_out ->
  exists (r : result unit) (c' : PointCloud2.t F),
    doTransform_PointCloud2 p_in p_in t_in h = Some (r, <[p_in := c']> h)
    /\ doTransform_PointCloud2 p_in p_out t_in h = Some (r, <[p_out := c']> h)
    /\ (r = returned tt <-> declares_xyz c = true)
    /\ (declares_xyz c = true -> c' = cloud_result t_in c).
Proof.
  intros Hin Hout _. exists (cloud_outcome c), (cloud_final t_in c).
  split; [exact (doTransform_PointCloud2_run t_in Hin Hin) | ].
  split; [exact (doTransform_PointCloud2_run t_in Hin Hout) | ].
  split; [apply cloud_outcome_returned | ].
  intros Hd. unfold cloud_final. rewrite Hd. reflexivity.
Qed.

Lemma doTransform_PointCloud2_alias_safe_witness :
  exists c' : PointCloud2.t binary32,
    doTransform_PointCloud2 1%positive 1%positive Sample.tf_z64
      Sample.cloud32_store
    = Some (returned tt, <[1%positive := c']> Sample.cloud32_store)
    /\ doTransform_PointCloud2 1%positive 2%positive Sample.tf_z64
         Sample.cloud32_store
       = Some (returned tt, <[2%positive := c']> Sample.cloud32_store).
Proof.
  destruct (@doTransform_PointCloud2_alias_safe binary64 binary32 _ _
              1%positive 2%positive Sample.tf_z64 Sample.cloud32_store
              Sample.cloud32 Sample.cloud32_blank eq_refl eq_refl
              ltac:(discriminate))
    as (r & c' & H1 & H2 & Hr & _).
  assert (Hret : r = returned tt) by (apply Hr; reflexivity).
  subst r. exists c'. split; assumption.
Defined.

(** C9.  Frame condition of the point-cloud [doTransform], whether it
    returns or throws: the header of the cloud left behind [p_out] is the
    header of the transform, whatever the header of the input; height,
    width, fields, endianness, point step, row step and density flag are
    those of the input; there are as many points as in the input, and the
    bytes of every point outside its x, y and z channels are those of the
    input point; every other object of the store is untouched.  The call
    returns exactly when the cloud declares x, y and z. *)
Theorem doTransform_PointCloud2_frame
  {D F : Type} `{Scalar F} `{Narrowing D F}
  (p_in p_out : loc) (t_in : TransformStamped.t D)
  (h : gmap loc (PointCloud2.t F)) (c c0 : PointCloud2.t F) :
  h !! p_in = Some c ->
  h !! p_out = Some c0 ->
  exists (r : result unit) (h' : gmap loc (PointCloud2.t F))
         (c' : PointCloud2.t F),
    doTransform_PointCloud2 p_in p_out t_in h = Some (r, h')
    /\ (r = returned tt <-> declares_xyz c = true)
    /\ h' !! p_out = Some c'
    /\ PointCloud2.header c' = TransformStamped.header t_in
    /\ PointCloud2.height c' = PointCloud2.height c
    /\ PointCloud2.width c' = PointCloud2.width c
    /\ PointCloud2.fields c' = PointCloud2.fields c
    /\ PointCloud2.is_bigendian c' = PointCloud2.is_bigendian c
    /\ PointCloud2.point_step c' = PointCloud2.point_step c
    /\ PointCloud2.row_step c' = PointCloud2.row_step c
    /\ PointCloud2.is_dense c' = PointCloud2.is_dense c
    /\ map (@Point.other F) (PointCloud2.data c')
       = map (@Point.other F) (PointCloud2.data c)
    /\ (forall l : loc, l <> p_out -> h' !! l = h !! l).
Proof.
  intros Hin Hout.
  exists (cloud_outcome c), (<[p_out := cloud_final t_in c]> h),
    (cloud_final t_in c).
  split; [exact (doTransform_PointCloud2_run t_in Hin Hout) | ].
  split; [apply cloud_outcome_returned | ].
  split; [apply lookup_insert_eq | ].
  destruct (cloud_final_frame t_in c)
    as (H1 & H2 & H3 & H4 & H5 & H6 & H7 & H8 & H9).
  repeat (split; [assumption | ]).
  intros l Hl. apply lookup_insert_ne. congruence.
Qed.

Lemma doTransform_PointCloud2_frame_witness :
  exists (r : result unit) (h' : gmap loc (PointCloud2.t binary32))
         (c' : PointCloud2.t binary32),
    doTransform_PointCloud2 1%positive 2%positive Sample.tf_z64
      Sample.cloud32_store
    = Some (r, h')
    /\ r = returned tt
    /\ h' !! 2%positive = Some c'
    /\ PointCloud2.header c' = Sample.stamp_a
    /\ PointCloud2.fields c' = Sample.xyz_fields.
Proof.
  destruct (@doTransform_PointCloud2_frame binary64 binary32 _ _
              1%positive 2%positive Sample.tf_z64 Sample.cloud32_store
              Sample.cloud32 Sample.cloud32_blank eq_refl eq_refl)
    as (r & h' & c' & Hrun & Hr & Hc' & Hhdr & _ & _ & Hf & _).
  exists r, h', c'.
  split; [exact Hrun | ].
  split; [apply Hr; reflexivity | ].
  repeat split; assumption.
Defined.

(** C10. The Imu and the MagneticField [doTransform] are mutation safe
    under full aliasing: called with the output reference equal to the
    input reference, each leaves in that object the very value that the
    call with a distinct output object leaves in the output object, and
    both calls succeed.  Holds for every scalar arithmetic. *)
Theorem doTransform_samples_alias_safe
  {D : Type} `{Scalar D} (t_in : TransformStamped.t D) :
  (forall (imu_in imu_out : loc) (h : gmap loc (Imu.t D)) (o o0 : Imu.t D),
      h !! imu_in = Some o ->
      h !! imu_out = Some o0 ->
      imu_in <> imu_out ->
      exists o' : Imu.t D,
        doTransform_Imu imu_in imu_in t_in h = Some (tt, <[imu_in := o']> h)
        /\ doTransform_Imu imu_in imu_out t_in h
           = Some (tt, <[imu_out := o']> h))
  /\ (forall (mag_in mag_out : loc) (h : gmap loc (MagneticField.t D))
        (o o0 : MagneticField.t D),
      h !! mag_in = Some o ->
      h !! mag_out = Some o0 ->
      mag_in <> mag_out ->
      exists o' : MagneticField.t D,
        doTransform_MagneticField mag_in mag_in t_in h
        = Some (tt, <[mag_in := o']> h)
        /\ doTransform_MagneticField mag_in mag_out t_in h
           = Some (tt, <[mag_out := o']> h)).
Proof.
  split.
  - intros imu_in imu_out h o o0 Hin Hout Hne.
    exists (imu_result t_in o). split.
    + exact (doTransform_Imu_aliased t_in Hin).
    + exact (doTransform_Imu_distinct t_in Hne Hin Hout).
  - intros mag_in mag_out h o o0 Hin Hout Hne.
    exists (mag_result t_in o). split.
    + exact (doTransform_MagneticField_aliased t_in Hin).
    + exact (doTransform_MagneticField_distinct t_in Hne Hin Hout).
Qed.

Lemma doTransform_samples_alias_safe_witness :
  (exists o' : Imu.t Qc,
      doTransform_Imu 1%positive 1%positive Sample.tf_a Sample.imu_store
      = Some (tt, <[1%positive := o']> Sample.imu_store)
      /\ doTransform_Imu 1%positive 2%positive Sample.tf_a Sample.imu_store
         = Some (tt, <[2%positive := o']> Sample.imu_store))
  /\ (exists o' : MagneticField.t Qc,
        doTransform_MagneticField 1%positive 1%positive Sample.tf_a
          Sample.mag_store
        = Some (tt, <[1%positive := o']> Sample.mag_store)
        /\ doTransform_MagneticField 1%positive 2%positive Sample.tf_a
             Sample.mag_store
           = Some (tt, <[2%positive := o']> Sample.mag_store)).
Proof.
  split.
  - refine (proj1 (@doTransform_samples_alias_safe Qc _ Sample.tf_a)
              1%positive 2%positive Sample.imu_store Sample.imu
              Sample.imu_blank eq_refl eq_refl _).
    discriminate.
  - refine (proj2 (@doTransform_samples_alias_safe Qc _ Sample.tf_a)
              1%positive 2%positive Sample.mag_store Sample.mag
              Sample.mag_blank eq_refl eq_refl _).
    discriminate.
Defined.

(** ** Further properties *)

(** X1. After each of the three [doTransform], [getFrameId] and
    [getTimestamp] of the output object give the frame id and the stamp
    of the transform's header, whatever the header of the input.  The Imu
    and the MagneticField calls return whenever both references designate
    objects; the PointCloud2 call returns exactly when the cloud declares
    x, y and z and throws otherwise, and the header is written in both
    cases. *)
Theorem doTransform_sets_frame_and_stamp
  {D F : Type} `{Scalar D} `{Scalar F} `{Narrowing D F}
  (t_in : TransformStamped.t D) :
  (forall (p_in p_out : loc) (h : gmap loc (PointCloud2.t F))
          (c c0 : PointCloud2.t F),
      h !! p_in = Some c -> h !! p_out = Some c0 ->
      exists (r : result unit) (h' : gmap loc (PointCloud2.t F))
             (c' : PointCloud2.t F),
        doTransform_PointCloud2 p_in p_out t_in h = Some (r, h')
        /\ (r = returned tt <-> declares_xyz c = true)
        /\ h' !! p_out = Some c'
        /\ getFrameId c' = Header.frame_id (TransformStamped.header t_in)
        /\ getTimestamp c' = Header.stamp (TransformStamped.header t_in))
  /\ (forall (imu_in imu_out : loc) (h : gmap loc (Imu.t D)) (o o0 : Imu.t D),
        h !! imu_in = Some o -> h !! imu_out = Some o0 ->
        exists (h' : gmap loc (Imu.t D)) (o' : Imu.t D),
          doTransform_Imu imu_in imu_out t_in h = Some (tt, h')
          /\ h' !! imu_out = Some o'
          /\ getFrameId o' = Header.frame_id (TransformStamped.header t_in)
          /\ getTimestamp o' = Header.stamp (TransformStamped.header t_in))
  /\ (forall (mag_in mag_out : loc) (h : gmap loc (MagneticField.t D))
        (o o0 : MagneticField.t D),
        h !! mag_in = Some o -> h !! mag_out = Some o0 ->
        exists (h' : gmap loc (MagneticField.t D)) (o' : MagneticField.t D),
          doTransform_MagneticField mag_in mag_out t_in h = Some (tt, h')
          /\ h' !! mag_out = Some o'
          /\ getFrameId o' = Header.frame_id (TransformStamped.header t_in)
          /\ getTimestamp o' = Header.stamp (TransformStamped.header t_in)).
Proof.
  split; [ | split ].
  - intros p_in p_out h c c0 Hin Hout.
    exists (cloud_outcome c), (<[p_out := cloud_final t_in c]> h),
      (cloud_final t_in c).
    split; [exact (doTransform_PointCloud2_run t_in Hin Hout) | ].
    split; [apply cloud_outcome_returned | ].
    split; [apply lookup_insert_eq | ].
    destruct (cloud_final_frame t_in c) as (Hh & _).
    cbn [getFrameId getTimestamp Stamped_PointCloud2]. rewrite Hh.
    split; reflexivity.
  - intros imu_in imu_out h o o0 Hin Hout.
    exists (<[imu_out := imu_result t_in o]> h), (imu_result t_in o).
    split; [exact (doTransform_Imu_run t_in Hin Hout) | ].
    split; [apply lookup_insert_eq | split; reflexivity].
  - intros mag_in mag_out h o o0 Hin Hout.
    exists (<[mag_out := mag_result t_in o]> h), (mag_result t_in o).
    split; [exact (doTransform_MagneticField_run t_in Hin Hout) | ].
    split; [apply lookup_insert_eq | split; reflexivity].
Qed.

(** X2. The Imu and the MagneticField [doTransform] overwrite every
    member of the output object: what they leave behind the output
    reference is determined by the input object and the transform, and
    does not depend on what the output object or the rest of the store
    held; nothing but the output object is written. *)
Theorem doTransform_samples_overwrite_output
  {D : Type} `{Scalar D} (t_in : TransformStamped.t D) :
  (forall (imu_in imu_out : loc) (h1 h2 : gmap loc (Imu.t D))
          (o a b : Imu.t D),
      h1 !! imu_in = Some o -> h2 !! imu_in = Some o ->
      h1 !! imu_out = Some a -> h2 !! imu_out = Some b ->
      exists o' : Imu.t D,
        doTransform_Imu imu_in imu_out t_in h1
        = Some (tt, <[imu_out := o']> h1)
        /\ doTransform_Imu imu_in imu_out t_in h2
           = Some (tt, <[imu_out := o']> h2))
  /\ (forall (mag_in mag_out : loc) (h1 h2 : gmap loc (MagneticField.t D))
        (o a b : MagneticField.t D),
        h1 !! mag_in = Some o -> h2 !! mag_in = Some o ->
        h1 !! mag_out = Some a -> h2 !! mag_out = Some b ->
        exists o' : MagneticField.t D,
          doTransform_MagneticField mag_in mag_out t_in h1
          = Some (tt, <[mag_out := o']> h1)
          /\ doTransform_MagneticField mag_in mag_out t_in h2
             = Some (tt, <[mag_out := o']> h2)).
Proof.
  split.
  - intros imu_in imu_out h1 h2 o a b Hin1 Hin2 Hout1 Hout2.
    exists (imu_result t_in o). split.
    + exact (doTransform_Imu_run t_in Hin1 Hout1).
    + exact (doTransform_Imu_run t_in Hin2 Hout2).
  - intros mag_in mag_out h1 h2 o a b Hin1 Hin2 Hout1 Hout2.
    exists (mag_result t_in o). split.
    + exact (doTransform_MagneticField_run t_in Hin1 Hout1).
    + exact (doTransform_MagneticField_run t_in Hin2 Hout2).
Qed.

(** X3. [fromMsg(toMsg(src), out)] leaves in [out] a copy of the object
    [src], as the direct [fromMsg(src, out)] does; [toMsg(out)] then
    returns that value; when [out] is [src] itself the store is
    unchanged. *)
Theorem fromMsg_toMsg_round_trip
  {Obj : Type} (src out : loc) (h : gmap loc Obj) (o o0 : Obj) :
  h !! src = Some o ->
  h !! out = Some o0 ->
  (m <- toMsg (lvalue src) ;; fromMsg (temporary m) out) h
  = Some (tt, <[out := o]> h)
  /\ fromMsg (lvalue src) out h = Some (tt, <[out := o]> h)
  /\ toMsg (lvalue out) (<[out := o]> h) = Some (o, <[out := o]> h)
  /\ (src = out -> <[out := o]> h = h).
Proof.
  intros Hsrc Hout. unfold toMsg, fromMsg, read_cref.
  repeat split.
  - rewrite (bind_read _ _ Hsrc). unfold bind, ret.
    rewrite (write_run _ Hout). reflexivity.
  - rewrite (bind_read _ _ Hsrc). apply (write_run _ Hout).
  - unfold read. rewrite lookup_insert_eq. reflexivity.
  - intros <-. apply insert_id. exact Hsrc.
Qed.

(** X11. The MagneticField [doTransform], and the vectors and the
    covariances the Imu [doTransform] writes, do not depend on the sign of
    the rotation quaternion: a transform and the same transform with the
    four coefficients of its rotation negated leave the same
    MagneticField store, and Imu objects with the same header, angular
    velocity, linear acceleration and covariances.  The rotation need not
    be a unit quaternion.  Holds in every arithmetic that satisfies the
    laws of [SignSymmetric], [double] included. *)
Theorem doTransform_samples_ignore_rotation_sign
  {T : Type} `{SignSymmetric T} (t_in : TransformStamped.t T) :
  let t_neg :=
    with_rotation
      (quat_neg (Transform.rotation (TransformStamped.transform t_in))) t_in in
  (forall (mag_in mag_out : loc) (h : gmap loc (MagneticField.t T))
          (o o0 : MagneticField.t T),
      h !! mag_in = Some o -> h !! mag_out = Some o0 ->
      exists h' : gmap loc (MagneticField.t T),
        doTransform_MagneticField mag_in mag_out t_in h = Some (tt, h')
        /\ doTransform_MagneticField mag_in mag_out t_neg h = Some (tt, h'))
  /\ (forall (imu_in imu_out : loc) (h : gmap loc (Imu.t T)) (o o0 : Imu.t T),
        h !! imu_in = Some o -> h !! imu_out = Some o0 ->
        exists (h1 h2 : gmap loc (Imu.t T)) (o1 o2 : Imu.t T),
          doTransform_Imu imu_in imu_out t_in h = Some (tt, h1)
          /\ doTransform_Imu imu_in imu_out t_neg h = Some (tt, h2)
          /\ h1 !! imu_out = Some o1
          /\ h2 !! imu_out = Some o2
          /\ imu_upd_orientation (fun _ => Imu.orientation o1) o2 = o1
          /\ (forall l : loc, l <> imu_out -> h1 !! l = h2 !! l)).
Proof.
  intros t_neg. split.
  - intros mag_in mag_out h o o0 Hin Hout.
    exists (<[mag_out := mag_result t_in o]> h).
    split; [exact (doTransform_MagneticField_run t_in Hin Hout) | ].
    rewrite (doTransform_MagneticField_run t_neg Hin Hout). unfold t_neg.
    rewrite mag_result_neg. reflexivity.
  - intros imu_in imu_out h o o0 Hin Hout.
    exists (<[imu_out := imu_result t_in o]> h),
      (<[imu_out := imu_result t_neg o]> h),
      (imu_result t_in o), (imu_result t_neg o).
    split; [exact (doTransform_Imu_run t_in Hin Hout) | ].
    split; [exact (doTransform_Imu_run t_neg Hin Hout) | ].
    split; [apply lookup_insert_eq | ].
    split; [apply lookup_insert_eq | ].
    split.
    + unfold imu_result, imu_upd_orientation, t_neg.
      rewrite !rotation_of_eta.
      cbn [with_rotation TransformStamped.transform Transform.rotation
           TransformStamped.header Imu.header Imu.orientation
           Imu.orientation_covariance Imu.angular_velocity
           Imu.angular_velocity_covariance Imu.linear_acceleration
           Imu.linear_acceleration_covariance].
      rewrite !rotate_covariance_neg, !transformVector_neg. reflexivity.
    + intros l Hl. rewrite !lookup_insert_ne by congruence. reflexivity.
Qed.

(** X13. In IEEE 754 single precision, on a cloud that declares x, y and
    z, a point of which some coordinate is not a number comes out of the
    PointCloud2 [doTransform] with all three coordinates not a number,
    for every transform. *)
Theorem doTransform_PointCloud2_keeps_invalid_points_invalid
  {D : Type} `{Narrowing D binary32}
  (p_in p_out : loc) (t_in : TransformStamped.t D)
  (h : gmap loc (PointCloud2.t binary32)) (c c0 : PointCloud2.t binary32) :
  h !! p_in = Some c ->
  h !! p_out = Some c0 ->
  declares_xyz c = true ->
  exists (h' : gmap loc (PointCloud2.t binary32)) (c' : PointCloud2.t binary32),
    doTransform_PointCloud2 p_in p_out t_in h = Some (returned tt, h')
    /\ h' !! p_out = Some c'
    /\ (forall (i : nat) (p : Point.t binary32),
          PointCloud2.data c !! i = Some p ->
          has_nan32 p ->
          exists p' : Point.t binary32,
            PointCloud2.data c' !! i = Some p'
            /\ is_nan32 (Point.x p') /\ is_nan32 (Point.y p')
            /\ is_nan32 (Point.z p')).
Proof.
  intros Hin Hout Hd.
  exists (<[p_out := cloud_result t_in c]> h), (cloud_result t_in c).
  split; [exact (doTransform_PointCloud2_returns t_in Hin Hout Hd) | ].
  split; [apply lookup_insert_eq | ].
  intros i p Hp Hnan.
  exists (transformPoint (cloud_transform t_in) p).
  rewrite cloud_result_lookup, Hp.
  split; [reflexivity | ]. apply transformPoint_nan. exact Hnan.
Qed.

(** *** The further properties on the sample inputs *)

Lemma doTransform_sets_frame_and_stamp_witness :
  (exists (r : result unit) (h' : gmap loc (PointCloud2.t binary32))
          (c' : PointCloud2.t binary32),
     doTransform_PointCloud2 1%positive 2%positive Sample.tf_z64
       Sample.cloud32_no_x_store = Some (r, h')
     /\ h' !! 2%positive = Some c'
     /\ getFrameId c' = "odom"
     /\ getTimestamp c' = RosTime.mk 100 5)
  /\ (exists (h' : gmap loc (Imu.t binary64)) (o' : Imu.t binary64),
        doTransform_Imu 1%positive 2%positive Sample.tf_z64 Sample.imu64_store
        = Some (tt, h')
        /\ h' !! 2%positive = Some o'
        /\ getFrameId o' = "odom"
        /\ getTimestamp o' = RosTime.mk 100 5).
Proof.
  split.
  - destruct (proj1 (@doTransform_sets_frame_and_stamp binary64 binary32 _ _ _
                       Sample.tf_z64)
                1%positive 2%positive Sample.cloud32_no_x_store
                Sample.cloud32_no_x Sample.cloud32_blank eq_refl eq_refl)
      as (r & h' & c' & Hrun & _ & Hc' & Hf & Ht).
    exists r, h', c'. repeat split; assumption.
  - exact (proj1 (proj2 (@doTransform_sets_frame_and_stamp binary64 binary32
                           _ _ _ Sample.tf_z64))
             1%positive 2%positive Sample.imu64_store Sample.imu64
             Sample.imu64_blank eq_refl eq_refl).
Defined.

Lemma doTransform_samples_overwrite_output_witness :
  exists o' : Imu.t Qc,
    doTransform_Imu 1%positive 2%positive Sample.tf_a Sample.imu_store
    = Some (tt, <[2%positive := o']> Sample.imu_store)
    /\ doTransform_Imu 1%positive 2%positive Sample.tf_a Sample.imu_store'
       = Some (tt, <[2%positive := o']> Sample.imu_store').
Proof.
  exact (proj1 (@doTransform_samples_overwrite_output Qc _ Sample.tf_a)
           1%positive 2%positive Sample.imu_store Sample.imu_store'
           Sample.imu Sample.imu_blank Sample.imu
           eq_refl eq_refl eq_refl eq_refl).
Defined.

Lemma fromMsg_toMsg_round_trip_witness :
  (m <- toMsg (lvalue 1%positive) ;; fromMsg (temporary m) 2%positive)
    Sample.mag_store
  = Some (tt, <[2%positive := Sample.mag]> Sample.mag_store).
Proof.
  exact (proj1 (@fromMsg_toMsg_round_trip _ 1%positive 2%positive
                  Sample.mag_store Sample.mag Sample.mag_blank
                  eq_refl eq_refl)).
Defined.

Lemma doTransform_samples_ignore_rotation_sign_witness :
  Transform.rotation (TransformStamped.transform Sample.tf_z64)
  <> quat_neg (Transform.rotation (TransformStamped.transform Sample.tf_z64))
  /\ exists h' : gmap loc (MagneticField.t binary64),
       doTransform_MagneticField 1%positive 2%positive Sample.tf_z64
         Sample.mag64_store = Some (tt, h')
       /\ doTransform_MagneticField 1%positive 2%positive
            (with_rotation
               (quat_neg
                  (Transform.rotation (TransformStamped.transform Sample.tf_z64)))
               Sample.tf_z64)
            Sample.mag64_store = Some (tt, h').
Proof.
  split.
  - intros Heq. apply (f_equal (fun q => b64 (Quaternion.w q))) in Heq.
    discriminate Heq.
  - exact (proj1 (@doTransform_samples_ignore_rotation_sign binary64 _ _
                    Sample.tf_z64)
             1%positive 2%positive Sample.mag64_store Sample.mag64
             Sample.mag64_blank eq_refl eq_refl).
Defined.

Lemma doTransform_PointCloud2_keeps_invalid_points_invalid_witness :
  exists (h' : gmap loc (PointCloud2.t binary32)) (c' : PointCloud2.t binary32),
    doTransform_PointCloud2 1%positive 1%positive Sample.tf_quarter_turn
      Sample.cloud32_store = Some (returned tt, h')
    /\ h' !! 1%positive = Some c'
    /\ exists p' : Point.t binary32,
         PointCloud2.data c' !! 1 = Some p'
         /\ is_nan32 (Point.x p') /\ is_nan32 (Point.y p')
         /\ is_nan32 (Point.z p').
Proof.
  destruct (@doTransform_PointCloud2_keeps_invalid_points_invalid binary64 _
              1%positive 1%positive Sample.tf_quarter_turn
              Sample.cloud32_store Sample.cloud32 Sample.cloud32
              eq_refl eq_refl eq_refl)
    as (h' & c' & Hrun & Hc' & Hnan).
  exists h', c'. split; [exact Hrun | split; [exact Hc' | ] ].
  apply (Hnan 1 (Point.mk Sample.nan32 Sample.one32 Sample.zero32 [])).
  - reflexivity.
  - left. reflexivity.
Defined.
